(** * Timeseries labeling tool: a model of [app.py] and its properties

    The tool is a Streamlit script.  Every interaction re-runs [main]: the
    uploaded CSV is read into a pandas data frame, [prepare_data] converts the
    two expected columns, a slider fixes the start of a two-hour window, the
    rows inside the window are plotted, and the button writes the chosen label
    onto those rows.

    The model keeps the shape of the script.  A data frame is a list of column
    names and a list of rows, each row carrying the pandas index label it was
    read with; [st.session_state] is a finite map from keys to instants; the
    widgets are the inputs of a run; [st.error] and [st.warning] are collected
    in a list of messages.  Instants are integers (microseconds, the resolution
    of a Python [datetime]); [NaT] and [NaN] are constructors of their own. *)

From Stdlib Require Import ZArith QArith Ascii.
From stdpp Require Import base option list sorting strings gmap.

Local Open Scope Z_scope.

(** ** Data frames *)

(** A field of the uploaded CSV: text, or nothing (pandas reads it as NaN). *)
Definition cell : Type := option string.

(** An entry of a [datetime64] column. *)
Inductive datetime : Type :=
| NaT
| Timestamp (t : Z).

(** An entry of a [float64] column; the finite values are never computed
    with, they are only carried along. *)
Inductive number : Type :=
| NaN
| Num (q : Q).

(** One row: its index label and the entries of the columns the script
    reads or writes; [rest] holds the entries of any other column.  [T] and
    [V] are the entry types of [timestamp] and [hoehe], which change when
    [prepare_data] converts the columns. *)
Record row (T V : Type) : Type := Row {
  index : nat;
  timestamp : T;
  hoehe : V;
  Label : cell;
  rest : list cell
}.
Arguments Row {T V} _ _ _ _ _.
Arguments index {T V} _.
Arguments timestamp {T V} _.
Arguments hoehe {T V} _.
Arguments Label {T V} _.
Arguments rest {T V} _.

Record DataFrame (T V : Type) : Type := Frame {
  columns : list string;
  rows : list (row T V)
}.
Arguments Frame {T V} _ _.
Arguments columns {T V} _.
Arguments rows {T V} _.

(** What [pd.read_csv] yields for a file of the two expected columns: the
    header as column names, and a [RangeIndex] numbering the rows from 0. *)
Definition read_csv (header : list string) (body : list (cell * cell))
  : DataFrame cell cell :=
  Frame header
    (imap (λ i tv, Row i (fst tv) (snd tv) None []) body).

(** What the script shows the user with [st.error], [st.warning],
    [st.success] and [st.info]. *)
Inductive message : Type :=
| st_error (text : string)
| st_warning (text : string)
| st_success (text : string)
| st_info (text : string).

(** ** [prepare_data] *)

Section prepare_data.

(** How pandas reads one text entry of the column at hand.
    [to_datetime_scalar] answers [None] where [pd.to_datetime] raises;
    [to_numeric_scalar] answers [None] where [pd.to_numeric] cannot read a
    number. *)
Variable to_datetime_scalar : string → option Z.
Variable to_numeric_scalar : string → option Q.

(** [pd.to_datetime(column)] with its default [errors="raise"]: a missing
    entry becomes [NaT], and one unreadable entry fails the whole call. *)
Definition convert_datetime (c : cell) : option datetime :=
  match c with
  | None => Some NaT
  | Some s => Timestamp <$> to_datetime_scalar s
  end.

Definition to_datetime (column : list cell) : option (list datetime) :=
  mapM convert_datetime column.

(** [pd.to_numeric(column, errors="coerce")]: what cannot be read is NaN. *)
Definition coerce_numeric (c : cell) : number :=
  match c ≫= to_numeric_scalar with
  | Some q => Num q
  | None => NaN
  end.

Definition to_numeric (column : list cell) : list number :=
  coerce_numeric <$> column.

(** [data["timestamp"] = ...] and [data["hoehe"] = ...]: the column is
    replaced entry by entry, every other entry of the row is kept. *)
Definition set_timestamp {T T' V} (data : DataFrame T V) (column : list T')
  : DataFrame T' V :=
  Frame (columns data)
    (zip_with (λ r t, Row (index r) t (hoehe r) (Label r) (rest r))
       (rows data) column).

Definition set_hoehe {T V V'} (data : DataFrame T V) (column : list V')
  : DataFrame T V' :=
  Frame (columns data)
    (zip_with (λ r v, Row (index r) (timestamp r) v (Label r) (rest r))
       (rows data) column).

Definition isnull (v : number) : bool :=
  match v with NaN => true | Num _ => false end.

(** [data.dropna(subset=["hoehe"])]: the rows whose [hoehe] is not NaN, in
    their order and with their index labels. *)
Definition dropna {T} (data : DataFrame T number) : DataFrame T number :=
  Frame (columns data) (filter (λ r, negb (isnull (hoehe r))) (rows data)).

Definition missing_timestamp : string := "The 'timestamp' column is missing.".
Definition missing_hoehe : string := "The 'hoehe' column is missing.".
Definition bad_timestamp : string := "Error converting 'timestamp' to datetime: ".
Definition dropped_hoehe : string :=
  "Some 'hoehe' entries could not be converted to numbers and will be dropped.".

(** [prepare_data(data)]: the frame it returns ([None] for Python's [None])
    and the messages it shows.  The text of the exception that follows
    [bad_timestamp] in the message is left out.  With [errors="coerce"] the
    numeric conversion raises on no text entry, so the [except] branch around
    it has no counterpart here. *)
Definition prepare_data (data : DataFrame cell cell)
  : option (DataFrame datetime number) * list message :=
  if bool_decide ("timestamp" ∉ columns data) then
    (None, [st_error missing_timestamp])
  else if bool_decide ("hoehe" ∉ columns data) then
    (None, [st_error missing_hoehe])
  else
    match to_datetime (timestamp <$> rows data) with
    | None => (None, [st_error bad_timestamp])
    | Some converted =>
        let data := set_timestamp data converted in
        let data := set_hoehe data (to_numeric (hoehe <$> rows data)) in
        if existsb isnull (hoehe <$> rows data) then
          (Some (dropna data), [st_warning dropped_hoehe])
        else
          (Some data, [])
    end.

(** An uploaded row and the row the two conversions make of it. *)
Definition converts (r : row cell cell) (r' : row datetime number) : Prop :=
  index r' = index r
  ∧ convert_datetime (timestamp r) = Some (timestamp r')
  ∧ hoehe r' = coerce_numeric (hoehe r)
  ∧ Label r' = Label r
  ∧ rest r' = rest r.

End prepare_data.

(** ** The window, the plot and the label assignment *)

(** [pd.Timedelta(hours=2)], in microseconds. *)
Definition two_hours : Z := 7200000000.

(** [data["timestamp"].min()] and [.max()]: NaT entries are skipped, and a
    column without any instant has none. *)
Definition instant (d : datetime) : option Z :=
  match d with Timestamp t => Some t | NaT => None end.

Definition instants {V} (data : DataFrame datetime V) : list Z :=
  omap (λ r, instant (timestamp r)) (rows data).

Definition timestamp_min {V} (data : DataFrame datetime V) : option Z :=
  match instants data with
  | [] => None
  | t :: ts => Some (foldr Z.min t ts)
  end.

Definition timestamp_max {V} (data : DataFrame datetime V) : option Z :=
  match instants data with
  | [] => None
  | t :: ts => Some (foldr Z.max t ts)
  end.

(** The mask [(data["timestamp"] >= x_start) & (data["timestamp"] <= x_end)]
    at one row; every comparison with NaT is false. *)
Definition in_range {V} (x_start x_end : Z) (r : row datetime V) : bool :=
  match timestamp r with
  | Timestamp t => (x_start <=? t) && (t <=? x_end)
  | NaT => false
  end.

(** [data[mask]]: the rows of the range, in their order. *)
Definition select {V} (data : DataFrame datetime V) (x_start x_end : Z)
  : list (row datetime V) :=
  filter (λ r, in_range x_start x_end r) (rows data).

(** The chart: the rows it draws and the range its title prints. *)
Record chart : Type := Chart {
  drawn : list (row datetime number);
  title : Z * Z
}.

(** [alt.selection_interval(encodings=["x"], name=...)]. *)
Inductive selection : Type :=
| selection_interval (name : string).

Definition create_interactive_plot (data : DataFrame datetime number)
    (x_start x_end : Z) : chart * selection :=
  let filtered_data := select data x_start x_end in
  let selection := selection_interval "brush" in
  (Chart filtered_data (x_start, x_end), selection).

(** What a pandas call may raise. *)
Inductive exception : Type :=
| KeyError
| ValueError.

Inductive result (A : Type) : Type :=
| Ok (a : A)
| Raise (e : exception).
Arguments Ok {A} _.
Arguments Raise {A} _.

Definition set_Label {T V} (value : string) (r : row T V) : row T V :=
  Row (index r) (timestamp r) (hoehe r) (Some value) (rest r).

(** The rows after the write: every row whose index label is listed gets
    [value], the others are left as they are. *)
Definition write_Label {T V} (labels : list nat) (value : string)
    (rs : list (row T V)) : list (row T V) :=
  (λ r, if bool_decide (index r ∈ labels) then set_Label value r else r) <$> rs.

(** The columns after a successful write: [Label] is appended when it is
    not there yet. *)
Definition with_Label (cols : list string) : list string :=
  if bool_decide ("Label" ∈ cols) then cols else cols ++ ["Label"].

(** [data.loc[labels, "Label"] = value].  A label that is no index label of
    the frame is a [KeyError].  A column [Label] that does not exist yet is
    added, filled with NaN, before the rows are written; pandas refuses that
    for a frame without rows and a scalar value. *)
Definition loc_set_Label {T V} (data : DataFrame T V) (labels : list nat)
    (value : string) : result (DataFrame T V) :=
  if bool_decide (labels ⊆ index <$> rows data) then
    if bool_decide ("Label" ∈ columns data) then
      Ok (Frame (columns data) (write_Label labels value (rows data)))
    else
      match rows data with
      | [] => Raise ValueError
      | _ =>
          Ok (Frame (columns data ++ ["Label"])
                (write_Label labels value (rows data)))
      end
  else Raise KeyError.

(** The body of [if st.button("Assign Label")]: the rows of the range are
    selected and the label is written at their index labels. *)
Definition assign_label {V} (data : DataFrame datetime V) (x_start x_end : Z)
    (selected_label : string) : result (DataFrame datetime V) :=
  let selected_data := select data x_start x_end in
  loc_set_Label data (index <$> selected_data) selected_label.

(** ** One run of [main] *)

(** The widgets of a run, as the script sees them: what the slider returns
    for the bounds and the value it is given, what the select box returns for
    its options, and whether the button was pressed.  [brushed] is the interval
    the user dragged on the chart; it lives in the browser. *)
Record widgets : Type := Widgets {
  slider : Z → Z → Z → Z;
  selectbox : list string → string;
  button : bool;
  brushed : option (Z * Z)
}.

Definition label_options : list string := ["Normal"; "Warning"; "Error"].

(** Lines 90 to 93: the two keys are set only where the session has none. *)
Definition init_session_state (min_timestamp : Z) (session_state : gmap string Z)
  : gmap string Z :=
  let session_state :=
    if bool_decide ("x_start" ∉ dom session_state) then
      <["x_start" := min_timestamp]> session_state
    else session_state in
  if bool_decide ("x_end" ∉ dom session_state) then
    <["x_end" := min_timestamp + two_hours]> session_state
  else session_state.

(** Lines 113 and 114: the slider's value becomes the start of the window. *)
Definition update_session_state (current_start : Z)
    (session_state : gmap string Z) : gmap string Z :=
  <["x_end" := current_start + two_hours]>
    (<["x_start" := current_start]> session_state).

(** What a run leaves behind: the session state, the chart and its selection
    parameter, the frame that is displayed and offered for download, and the
    messages shown. *)
Record page : Type := Page {
  session_state_after : gmap string Z;
  shown_chart : chart;
  chart_selection : selection;
  labeled_data : DataFrame datetime number;
  messages : list message
}.

Inductive outcome : Type :=
| Waiting
| Returned (shown : list message)
| Raised
| Rendered (p : page).

Definition assigned (selected_label : string) : string :=
  "Assigned label '" +:+ selected_label +:+ "' to the selected range.".

Definition use_selection : string :=
  "Use the selection tool to select data within the visible range and assign labels directly.".

Section main.

Variable to_datetime_scalar : string → option Z.
Variable to_numeric_scalar : string → option Q.

(** [main()], given what [upload_file] returned.  Without a file nothing
    happens; when [prepare_data] returns [None] the run returns.  A column
    without any instant has NaT for its minimum, from which no slider can be
    set up: the run ends in an exception, as it does when the assignment
    raises. *)
Definition main (ui : widgets) (uploaded : option (DataFrame cell cell))
    (session_state : gmap string Z) : outcome :=
  match uploaded with
  | None => Waiting
  | Some data =>
      match prepare_data to_datetime_scalar to_numeric_scalar data with
      | (None, shown) => Returned shown
      | (Some data, shown) =>
          match timestamp_min data, timestamp_max data with
          | Some min_time, Some max_time =>
              let session_state := init_session_state min_time session_state in
              let current_start :=
                slider ui min_time (max_time - two_hours)
                  (session_state !!! "x_start") in
              let session_state :=
                update_session_state current_start session_state in
              let x_start := session_state !!! "x_start" in
              let x_end := session_state !!! "x_end" in
              let '(chart, selection) :=
                create_interactive_plot data x_start x_end in
              let selected_label := selectbox ui label_options in
              let shown := shown ++ [st_info use_selection] in
              if button ui then
                match assign_label data x_start x_end selected_label with
                | Ok data =>
                    Rendered
                      (Page session_state chart selection data
                         (shown ++ [st_success (assigned selected_label)]))
                | Raise _ => Raised
                end
              else Rendered (Page session_state chart selection data shown)
          | _, _ => Raised
          end
      end
  end.

End main.

(** ** Readers for the worked examples

    pandas reads many formats.  The examples below only use clock times
    written [HH:MM] and unsigned decimals; these two readers cover exactly
    those, and answer [None] on anything else. *)

Definition digit (c : ascii) : option Z :=
  let n := Z.of_N (N_of_ascii c) in
  if (48 <=? n) && (n <=? 57) then Some (n - 48) else None.

(** [HH:MM] as microseconds since midnight. *)
Definition clock (s : string) : option Z :=
  match s with
  | String h1 (String h2 (String ":"%char (String m1 (String m2 EmptyString)))) =>
      h1 ← digit h1; h2 ← digit h2; m1 ← digit m1; m2 ← digit m2;
      let h := 10 * h1 + h2 in
      let m := 10 * m1 + m2 in
      if (h <? 24) && (m <? 60) then Some ((60 * h + m) * 60000000) else None
  | _ => None
  end.

(** The digits of [s] read after [acc]; the second component counts them. *)
Fixpoint digits (s : string) (acc : Z) (n : nat) : option (Z * nat) :=
  match s with
  | EmptyString => Some (acc, n)
  | String c s => d ← digit c; digits s (10 * acc + d) (S n)
  end.

(** The text after the first dot of [s], when there is one. *)
Fixpoint split_dot (s : string) : string * option string :=
  match s with
  | EmptyString => (EmptyString, None)
  | String "."%char s => (EmptyString, Some s)
  | String c s => let '(a, b) := split_dot s in (String c a, b)
  end.

(** An unsigned decimal such as [12] or [2.50]. *)
Definition decimal (s : string) : option Q :=
  let '(whole, fraction) := split_dot s in
  '(w, n) ← digits whole 0 0;
  if bool_decide (n = 0%nat) then None
  else
    match fraction with
    | None => Some (inject_Z w)
    | Some f =>
        '(m, k) ← digits f w 0;
        Some (Qmake m (Z.to_pos (10 ^ Z.of_nat k)))
    end.

Definition at_0900 : Z := 32400000000.
Definition at_0930 : Z := 34200000000.
Definition at_1300 : Z := 46800000000.

(** The table of the first end-to-end scenario. *)
Definition scenario1 : DataFrame cell cell :=
  read_csv ["timestamp"; "hoehe"]
    [(Some "09:00", Some "1.0");
     (Some "09:30", Some "2.0");
     (Some "13:00", Some "3.0")].

(** The validated series of the first scenario. *)
Definition series1 : DataFrame datetime number :=
  Frame ["timestamp"; "hoehe"]
    [Row 0 (Timestamp at_0900) (Num 1.0) None [];
     Row 1 (Timestamp at_0930) (Num 2.0) None [];
     Row 2 (Timestamp at_1300) (Num 3.0) None []].

(** Two rows half an hour apart: a series shorter than the window. *)
Definition short_table : DataFrame cell cell :=
  read_csv ["timestamp"; "hoehe"]
    [(Some "09:00", Some "1.0");
     (Some "09:30", Some "2.0")].

Definition short_series : DataFrame datetime number :=
  Frame ["timestamp"; "hoehe"]
    [Row 0 (Timestamp at_0900) (Num 1.0) None [];
     Row 1 (Timestamp at_0930) (Num 2.0) None []].

(** A table whose rows arrive out of timestamp order. *)
Definition out_of_order : DataFrame cell cell :=
  read_csv ["timestamp"; "hoehe"]
    [(Some "13:00", Some "3.0");
     (Some "09:00", Some "1.0")].

(** A table with one unreadable timestamp among readable ones. *)
Definition one_bad_timestamp : DataFrame cell cell :=
  read_csv ["timestamp"; "hoehe"]
    [(Some "09:00", Some "1.0");
     (Some "abc", Some "2.0");
     (Some "13:00", Some "3.0")].

(** Tables with one and with two unreadable values. *)
Definition one_bad_value : DataFrame cell cell :=
  read_csv ["timestamp"; "hoehe"]
    [(Some "09:00", Some "1.0");
     (Some "09:30", Some "abc");
     (Some "13:00", Some "3.0")].

Definition two_bad_values : DataFrame cell cell :=
  read_csv ["timestamp"; "hoehe"]
    [(Some "09:00", Some "1.0");
     (Some "09:30", Some "abc");
     (Some "13:00", Some "xyz")].

(** Widgets for the examples.  [requesting x] is a run in which the slider
    hands [x] to the script; [clamping x] one in which the slider first brings
    [x] within the bounds it was given.  Both leave the select box on the
    option the user picked (the first, when there is no such option). *)
Definition pick (choice : string) (options : list string) : string :=
  if bool_decide (choice ∈ options) then choice else default "" (head options).

Definition requesting (x : Z) (choice : string) (pressed : bool) : widgets :=
  Widgets (λ _ _ _, x) (pick choice) pressed None.

Definition clamping (x : Z) (choice : string) (pressed : bool) : widgets :=
  Widgets (λ min_value max_value _, Z.max min_value (Z.min max_value x))
    (pick choice) pressed None.

(** * Properties *)

(** ** Writing labels *)

Section write.

Context {T V : Type}.
Implicit Types (data : DataFrame T V) (r : row T V) (labels : list nat).

Lemma write_Label_length labels value (rs : list (row T V)) :
  length (write_Label labels value rs) = length rs.
Proof. unfold write_Label. by rewrite length_fmap. Qed.

Lemma write_Label_lookup labels value (rs : list (row T V)) i :
  write_Label labels value rs !! i =
  (λ r, if bool_decide (index r ∈ labels) then set_Label value r else r)
    <$> rs !! i.
Proof. unfold write_Label. by rewrite list_lookup_fmap. Qed.

Lemma write_Label_index labels value (rs : list (row T V)) :
  index <$> write_Label labels value rs = index <$> rs.
Proof.
  unfold write_Label. rewrite <- list_fmap_compose.
  apply list_fmap_ext. intros i r _. simpl. by case_bool_decide.
Qed.

Lemma write_Label_twice labels value value' (rs : list (row T V)) :
  write_Label labels value' (write_Label labels value rs)
  = write_Label labels value' rs.
Proof.
  unfold write_Label. rewrite <- list_fmap_compose.
  apply list_fmap_ext. intros i r _. simpl.
  destruct (decide (index r ∈ labels)) as [Hin | Hin].
  - rewrite (bool_decide_true _ Hin). simpl.
    rewrite (bool_decide_true _ Hin). reflexivity.
  - rewrite (bool_decide_false _ Hin).
    rewrite (bool_decide_false _ Hin). reflexivity.
Qed.

Lemma write_Label_nil value (rs : list (row T V)) :
  write_Label [] value rs = rs.
Proof.
  unfold write_Label. induction rs as [| r rs IH]; [done |].
  rewrite fmap_cons, IH.
  rewrite bool_decide_false; [done | apply not_elem_of_nil].
Qed.

Lemma with_Label_elem cols : "Label" ∈ with_Label cols.
Proof.
  unfold with_Label. case_bool_decide; [done |].
  apply elem_of_app. right. apply list_elem_of_singleton. done.
Qed.

Lemma with_Label_idemp cols : with_Label (with_Label cols) = with_Label cols.
Proof.
  unfold with_Label at 1. rewrite bool_decide_true; [done | apply with_Label_elem].
Qed.

(** The write succeeds on a frame with rows when every listed label is an
    index label of the frame. *)
Lemma loc_set_Label_Ok data labels value :
  rows data ≠ [] →
  labels ⊆ index <$> rows data →
  loc_set_Label data labels value
  = Ok (Frame (with_Label (columns data)) (write_Label labels value (rows data))).
Proof.
  intros Hrows Hsub. unfold loc_set_Label, with_Label.
  rewrite bool_decide_true by done.
  case_bool_decide; [done |].
  destruct (rows data) eqn:E; [done | done].
Qed.

End write.

Section write_claims.

Context {T V : Type}.
Implicit Types (data : DataFrame T V) (r : row T V) (labels : list nat).

(** C6. Writing a label is idempotent and the last write wins: on a frame
    with rows and for index labels of the frame, writing [L] twice gives what
    writing it once gives; writing [L'] afterwards gives exactly what writing
    [L'] alone gives, so every named row carries [L'] and nothing of [L] is
    left. *)
Theorem loc_set_Label_idempotent_last_write_wins data labels (L L' : string) :
  rows data ≠ [] →
  labels ⊆ index <$> rows data →
  ∃ once,
    loc_set_Label data labels L = Ok once
    ∧ loc_set_Label once labels L = Ok once
    ∧ ∃ twice,
        loc_set_Label once labels L' = Ok twice
        ∧ loc_set_Label data labels L' = Ok twice
        ∧ ∀ r, r ∈ rows twice → index r ∈ labels → Label r = Some L'.
Proof.
  intros Hrows Hsub.
  pose (once := Frame (with_Label (columns data)) (write_Label labels L (rows data))).
  assert (Hrows1 : rows once ≠ []).
  { intros E. apply (f_equal length) in E. simpl in E.
    rewrite write_Label_length in E. by destruct (rows data). }
  assert (Hsub1 : labels ⊆ index <$> rows once).
  { simpl. by rewrite write_Label_index. }
  exists once. split; [by apply loc_set_Label_Ok |].
  split.
  { rewrite loc_set_Label_Ok by done. simpl.
    by rewrite with_Label_idemp, write_Label_twice. }
  exists (Frame (with_Label (columns data)) (write_Label labels L' (rows data))).
  split.
  { rewrite loc_set_Label_Ok by done. simpl.
    by rewrite with_Label_idemp, write_Label_twice. }
  split; [by apply loc_set_Label_Ok |].
  simpl. intros r Hr Hin. unfold write_Label in Hr.
  apply list_elem_of_fmap in Hr as (r0 & -> & _).
  case_bool_decide as Hin0; [done |].
  by destruct Hin0.
Qed.

(** C9. Writing a label touches nothing but the [Label] entry of the named
    rows: the frame keeps its rows, in number and in order, every entry of
    another column is the same, no column is lost, a row that is not named is
    the same row, and with no row named all rows are the same (the frame is
    the same frame when it had the column [Label] already; otherwise it gains
    that column, empty). *)
Theorem loc_set_Label_frame data labels (L : string) :
  rows data ≠ [] →
  labels ⊆ index <$> rows data →
  ∃ data',
    loc_set_Label data labels L = Ok data'
    ∧ length (rows data') = length (rows data)
    ∧ Forall2 (λ r r',
        index r' = index r ∧ timestamp r' = timestamp r
        ∧ hoehe r' = hoehe r ∧ rest r' = rest r
        ∧ (index r ∉ labels → r' = r))
        (rows data) (rows data')
    ∧ columns data ⊆ columns data'
    ∧ (labels = [] → rows data' = rows data)
    ∧ (labels = [] → "Label" ∈ columns data → data' = data).
Proof.
  intros Hrows Hsub. eexists. split; [by apply loc_set_Label_Ok |]. simpl.
  split; [apply write_Label_length |].
  split.
  { unfold write_Label. apply Forall2_fmap_r, Forall_Forall2_diag, Forall_forall.
    intros r _. unfold compose. case_bool_decide; [| done].
    repeat split; try done. }
  split.
  { unfold with_Label. case_bool_decide; [done |].
    intros c Hc. apply elem_of_app. by left. }
  split; [intros ->; apply write_Label_nil |].
  intros -> Hcol. rewrite write_Label_nil. unfold with_Label.
  rewrite bool_decide_true by done. by destruct data.
Qed.

(** C7, as the code has it. The write does not look at the value: on a frame
    with rows and for index labels of the frame it succeeds for every text,
    one of the offered labels or not, and every named row then carries that
    text. *)
Theorem loc_set_Label_any_value data labels (value : string) :
  rows data ≠ [] →
  labels ⊆ index <$> rows data →
  ∃ data',
    loc_set_Label data labels value = Ok data'
    ∧ ∀ r', r' ∈ rows data' → index r' ∈ labels → Label r' = Some value.
Proof.
  intros Hrows Hsub. eexists. split; [by apply loc_set_Label_Ok |]. simpl.
  intros r Hr Hin. unfold write_Label in Hr.
  apply list_elem_of_fmap in Hr as (r0 & -> & _).
  case_bool_decide as Hin0; [done |].
  by destruct Hin0.
Qed.

End write_claims.

(** ** Selecting the rows of a range *)

Section select.

Context {V : Type}.
Implicit Types (data : DataFrame datetime V) (r : row datetime V).

Lemma in_range_spec x_start x_end r :
  in_range x_start x_end r ↔
  ∃ t, timestamp r = Timestamp t ∧ x_start ≤ t ≤ x_end.
Proof.
  unfold in_range. destruct (timestamp r) as [| t].
  - split; [done | by intros (t & ? & _)].
  - rewrite andb_True, !Is_true_true, !Z.leb_le. split.
    + intros [? ?]. exists t. done.
    + intros (t' & [= <-] & ?). done.
Qed.

Lemma elem_of_select data x_start x_end r :
  r ∈ select data x_start x_end ↔
  in_range x_start x_end r ∧ r ∈ rows data.
Proof. unfold select. by rewrite list_elem_of_filter. Qed.

Lemma elem_of_select_rows data x_start x_end r :
  r ∈ rows data →
  r ∈ select data x_start x_end ↔ in_range x_start x_end r.
Proof. intros Hr. rewrite elem_of_select. tauto. Qed.

Lemma select_index_subseteq data x_start x_end :
  index <$> select data x_start x_end ⊆ index <$> rows data.
Proof.
  intros i (r & -> & Hr)%list_elem_of_fmap.
  apply elem_of_select in Hr as [_ Hr].
  apply list_elem_of_fmap. eauto.
Qed.

(** With unique index labels a row is found by its label. *)
Lemma index_unique {T W} (rs : list (row T W)) (r r' : row T W) :
  NoDup (index <$> rs) → r ∈ rs → r' ∈ rs → index r = index r' → r = r'.
Proof.
  induction rs as [| a rs IH]; [by intros _ ?%elem_of_nil |].
  rewrite fmap_cons, NoDup_cons. intros [Ha Hnd] Hr Hr' E.
  apply elem_of_cons in Hr as [-> | Hr]; apply elem_of_cons in Hr' as [-> | Hr'].
  - done.
  - destruct Ha. rewrite E. apply list_elem_of_fmap. eauto.
  - destruct Ha. rewrite <- E. apply list_elem_of_fmap. eauto.
  - by apply IH.
Qed.

Lemma select_index data x_start x_end r :
  NoDup (index <$> rows data) → r ∈ rows data →
  index r ∈ index <$> select data x_start x_end ↔ in_range x_start x_end r.
Proof.
  intros Hnd Hr. split.
  - intros (r' & E & Hr')%list_elem_of_fmap.
    apply elem_of_select in Hr' as [Hin Hr'].
    by rewrite (index_unique _ _ _ Hnd Hr Hr' E).
  - intros Hin. apply list_elem_of_fmap. exists r. split; [done |].
    by apply elem_of_select.
Qed.

Lemma assign_label_Ok data x_start x_end (selected_label : string) :
  rows data ≠ [] →
  assign_label data x_start x_end selected_label
  = Ok (Frame (with_Label (columns data))
          (write_Label (index <$> select data x_start x_end) selected_label
             (rows data))).
Proof.
  intros Hrows. unfold assign_label.
  apply loc_set_Label_Ok; [done | apply select_index_subseteq].
Qed.

(** C1. On a frame with rows and unique index labels, the assignment for
    the range from [lo] to [hi] succeeds and keeps every row in its place; a
    row whose timestamp [t] has [lo <= t <= hi] gets the label, every other
    row (outside the range, or without a timestamp) is the row it was, prior
    label included; a range without rows changes no row. *)
Theorem assign_label_exactly_the_range data lo hi (selected_label : string) :
  rows data ≠ [] →
  NoDup (index <$> rows data) →
  ∃ data',
    assign_label data lo hi selected_label = Ok data'
    ∧ length (rows data') = length (rows data)
    ∧ (∀ i r, rows data !! i = Some r →
         ∃ r', rows data' !! i = Some r'
           ∧ (∀ t, timestamp r = Timestamp t → lo ≤ t ≤ hi →
                r' = set_Label selected_label r)
           ∧ ((∀ t, timestamp r = Timestamp t → ¬ (lo ≤ t ≤ hi)) → r' = r))
    ∧ (select data lo hi = [] → rows data' = rows data).
Proof.
  intros Hrows Hnd. eexists. split; [by apply assign_label_Ok |]. simpl.
  split; [apply write_Label_length |].
  split.
  - intros i r Hi. rewrite write_Label_lookup, Hi. simpl.
    eexists. split; [done |].
    assert (Hr : r ∈ rows data) by (apply list_elem_of_lookup; eauto).
    pose proof (select_index data lo hi r Hnd Hr) as Hsel.
    rewrite in_range_spec in Hsel.
    split.
    + intros t Ht Hle. rewrite bool_decide_true; [done |].
      apply Hsel. eauto.
    + intros Hout. rewrite bool_decide_false; [done |].
      intros (t & Ht & Hle)%Hsel. by apply (Hout t).
  - intros ->. apply write_Label_nil.
Qed.

End select.

(** Closed decidable facts about the examples are settled by evaluation. *)
Ltac by_computation := apply (bool_decide_unpack _); by vm_compute.

Example scenario3_labels :
  assign_label series1 at_0900 at_0930 "Warning"
  = Ok (Frame ["timestamp"; "hoehe"; "Label"]
          [Row 0 (Timestamp at_0900) (Num 1.0) (Some "Warning") [];
           Row 1 (Timestamp at_0930) (Num 2.0) (Some "Warning") [];
           Row 2 (Timestamp at_1300) (Num 3.0) None []]).
Proof. reflexivity. Qed.

Lemma series1_index_NoDup : NoDup (index <$> rows series1).
Proof. by_computation. Qed.

Lemma assign_label_scenario3 :
  rows series1 ≠ []
  ∧ NoDup (index <$> rows series1)
  ∧ ∃ data',
      assign_label series1 at_0900 at_0930 "Warning" = Ok data'
      ∧ length (rows data') = length (rows series1)
      ∧ (∀ i r, rows series1 !! i = Some r →
           ∃ r', rows data' !! i = Some r'
             ∧ (∀ t, timestamp r = Timestamp t → at_0900 ≤ t ≤ at_0930 →
                  r' = set_Label "Warning" r)
             ∧ ((∀ t, timestamp r = Timestamp t → ¬ (at_0900 ≤ t ≤ at_0930)) →
                  r' = r))
      ∧ (select series1 at_0900 at_0930 = [] → rows data' = rows series1).
Proof.
  split; [done |]. split; [apply series1_index_NoDup |].
  apply (assign_label_exactly_the_range series1 at_0900 at_0930 "Warning");
    [done | apply series1_index_NoDup].
Defined.

(** ** The window *)

Section window.

Context {V : Type}.
Implicit Types (data : DataFrame datetime V) (r : row datetime V).

Lemma foldr_min_le (t : Z) (ts : list Z) (x : Z) :
  x ∈ t :: ts → foldr Z.min t ts ≤ x.
Proof.
  induction ts as [| a ts IH]; simpl.
  - intros ->%list_elem_of_singleton. lia.
  - rewrite elem_of_cons, elem_of_cons.
    intros [-> | [-> | Hx]].
    + etrans; [apply Z.le_min_r | apply IH; left].
    + apply Z.le_min_l.
    + etrans; [apply Z.le_min_r | apply IH; by right].
Qed.

Lemma foldr_max_ge (t : Z) (ts : list Z) (x : Z) :
  x ∈ t :: ts → x ≤ foldr Z.max t ts.
Proof.
  induction ts as [| a ts IH]; simpl.
  - intros ->%list_elem_of_singleton. lia.
  - rewrite elem_of_cons, elem_of_cons.
    intros [-> | [-> | Hx]].
    + etrans; [apply IH; left | apply Z.le_max_r].
    + apply Z.le_max_l.
    + etrans; [apply IH; by right | apply Z.le_max_r].
Qed.

Lemma elem_of_instants data r t :
  r ∈ rows data → timestamp r = Timestamp t → t ∈ instants data.
Proof.
  intros Hr Ht. unfold instants. apply list_elem_of_omap.
  exists r. by rewrite Ht.
Qed.

Lemma timestamp_min_le data lo r t :
  timestamp_min data = Some lo → r ∈ rows data → timestamp r = Timestamp t →
  lo ≤ t.
Proof.
  unfold timestamp_min. intros Hmin Hr Ht.
  pose proof (elem_of_instants data r t Hr Ht) as Hin.
  destruct (instants data) as [| t0 ts]; [done |].
  injection Hmin as <-. by apply foldr_min_le.
Qed.

Lemma timestamp_max_ge data hi r t :
  timestamp_max data = Some hi → r ∈ rows data → timestamp r = Timestamp t →
  t ≤ hi.
Proof.
  unfold timestamp_max. intros Hmax Hr Ht.
  pose proof (elem_of_instants data r t Hr Ht) as Hin.
  destruct (instants data) as [| t0 ts]; [done |].
  injection Hmax as <-. by apply foldr_max_ge.
Qed.

Lemma timestamp_min_max data lo :
  timestamp_min data = Some lo → ∃ hi, timestamp_max data = Some hi.
Proof.
  unfold timestamp_min, timestamp_max.
  destruct (instants data); [done | eauto].
Qed.

Lemma timestamp_min_rows data lo : timestamp_min data = Some lo → rows data ≠ [].
Proof.
  unfold timestamp_min, instants. intros Hmin E. by rewrite E in Hmin.
Qed.

Lemma init_session_state_fresh (min_timestamp : Z) :
  init_session_state min_timestamp ∅
  = <["x_end" := min_timestamp + two_hours]> (<["x_start" := min_timestamp]> ∅).
Proof.
  unfold init_session_state.
  assert (H1 : "x_start" ∉ dom (∅ : gmap string Z)) by set_solver.
  rewrite (bool_decide_true _ H1).
  assert (H2 : "x_end" ∉ dom (<["x_start" := min_timestamp]> (∅ : gmap string Z))).
  { rewrite dom_insert_L, dom_empty_L. set_solver. }
  by rewrite (bool_decide_true _ H2).
Qed.

(** C5, as the code has it. In a fresh session the initial window starts at
    the minimum timestamp and ends two hours later, whatever the maximum
    timestamp is; when the series spans no more than two hours, every row
    with a timestamp lies in that window. *)
Theorem initial_window_is_two_hours data lo hi :
  timestamp_min data = Some lo →
  timestamp_max data = Some hi →
  init_session_state lo ∅ !! "x_start" = Some lo
  ∧ init_session_state lo ∅ !! "x_end" = Some (lo + two_hours)
  ∧ (hi - lo ≤ two_hours →
     ∀ r t, r ∈ rows data → timestamp r = Timestamp t →
       r ∈ select data lo (lo + two_hours)).
Proof.
  intros Hmin Hmax. rewrite init_session_state_fresh.
  split; [by rewrite lookup_insert_ne, lookup_insert_eq |].
  split; [by rewrite lookup_insert_eq |].
  intros Hspan r t Hr Ht. apply elem_of_select. split; [| done].
  apply in_range_spec. exists t. split; [done |].
  pose proof (timestamp_min_le _ _ _ _ Hmin Hr Ht).
  pose proof (timestamp_max_ge _ _ _ _ Hmax Hr Ht). lia.
Qed.

End window.

Example prepare_data_short_table :
  prepare_data clock decimal short_table = (Some short_series, []).
Proof. reflexivity. Qed.

Lemma initial_window_short_series :
  timestamp_min short_series = Some at_0900
  ∧ timestamp_max short_series = Some at_0930
  ∧ init_session_state at_0900 ∅ !! "x_start" = Some at_0900
  ∧ init_session_state at_0900 ∅ !! "x_end" = Some (at_0900 + two_hours)
  ∧ (at_0930 - at_0900 ≤ two_hours →
     ∀ r t, r ∈ rows short_series → timestamp r = Timestamp t →
       r ∈ select short_series at_0900 (at_0900 + two_hours)).
Proof.
  split; [reflexivity |]. split; [reflexivity |].
  apply (initial_window_is_two_hours short_series at_0900 at_0930); reflexivity.
Defined.

(** The claim of C5 fails on [short_series]: the initial window ends at
    11:00, two hours after the first row, and not at 09:30, the last row. *)
Lemma initial_window_passes_the_last_row :
  timestamp_min short_series = Some at_0900
  ∧ timestamp_max short_series = Some at_0930
  ∧ init_session_state at_0900 ∅ !! "x_end"
    ≠ Some (Z.min (at_0900 + two_hours) at_0930)
  ∧ init_session_state at_0900 ∅ !! "x_end" ≠ Some at_0930.
Proof.
  split; [reflexivity |]. split; [reflexivity |].
  rewrite init_session_state_fresh, lookup_insert_eq.
  split; intros [= E]; vm_compute in E; discriminate.
Qed.

(** ** [prepare_data] *)

Lemma filter_all {A} (P : A → Prop) `{!∀ x, Decision (P x)} (l : list A) :
  Forall P l → filter P l = l.
Proof.
  induction 1 as [| x l Hx _ IH]; [done |].
  by rewrite filter_cons_True, IH.
Qed.

Lemma filter_none {A} (P : A → Prop) `{!∀ x, Decision (P x)} (l : list A) :
  Forall (λ x, ¬ P x) l → filter P l = [].
Proof.
  induction 1 as [| x l Hx _ IH]; [done |].
  by rewrite filter_cons_False, IH.
Qed.

Lemma sublist_omap {A B} (f : A → option B) (l1 l2 : list A) :
  l1 `sublist_of` l2 → omap f l1 `sublist_of` omap f l2.
Proof.
  induction 1 as [| x l1 l2 _ IH | x l1 l2 _ IH]; simpl.
  - done.
  - destruct (f x); [by apply sublist_skip | done].
  - destruct (f x); [by apply sublist_cons | done].
Qed.

Lemma omap_fmap {A B C} (f : A → B) (g : B → option C) (l : list A) :
  omap g (f <$> l) = omap (λ x, g (f x)) l.
Proof.
  induction l as [| x l IH]; [done |].
  csimpl. rewrite IH. done.
Qed.

Lemma StronglySorted_sublist {A} (R : relation A) (l1 l2 : list A) :
  l1 `sublist_of` l2 → StronglySorted R l2 → StronglySorted R l1.
Proof.
  induction 1 as [| x l1 l2 Hsub IH | x l1 l2 Hsub IH]; intros Hs.
  - done.
  - apply StronglySorted_inv in Hs as [Hs Hx]. constructor; [by apply IH |].
    rewrite Forall_forall in Hx |- *. intros y Hy. apply Hx.
    eauto using elem_of_sublist.
  - apply StronglySorted_inv in Hs as [Hs _]. by apply IH.
Qed.

Lemma Sorted_le_sublist (l1 l2 : list Z) :
  l1 `sublist_of` l2 → Sorted Z.le l2 → Sorted Z.le l1.
Proof.
  intros Hsub Hs. apply StronglySorted_Sorted.
  eapply StronglySorted_sublist; [done |].
  by apply Sorted_StronglySorted; [apply _ |].
Qed.

Section prepare_claims.

Variable to_datetime_scalar : string → option Z.
Variable to_numeric_scalar : string → option Q.

Local Abbreviation prepare := (prepare_data to_datetime_scalar to_numeric_scalar).
Local Abbreviation convert := (convert_datetime to_datetime_scalar).
Local Abbreviation coerce := (coerce_numeric to_numeric_scalar).
Local Abbreviation converted_to :=
  (converts to_datetime_scalar to_numeric_scalar).

Lemma set_columns_converts (rs : list (row cell cell)) (converted : list datetime) :
  Forall2 (λ c t, convert c = Some t) (timestamp <$> rs) converted →
  Forall2 converted_to rs
    (zip_with (λ r v, Row (index r) (timestamp r) v (Label r) (rest r))
       (zip_with (λ r t, Row (index r) t (hoehe r) (Label r) (rest r))
          rs converted)
       (coerce <$> (hoehe <$>
          zip_with (λ r t, Row (index r) t (hoehe r) (Label r) (rest r))
            rs converted))).
Proof.
  revert converted. induction rs as [| r rs IH]; intros converted H.
  - inv H. constructor.
  - rewrite fmap_cons in H. apply Forall2_cons_inv_l in H as (t & ts & Ht & H & ->).
    simpl. constructor; [by repeat split | by apply IH].
Qed.

Lemma dropna_notnull (data : DataFrame datetime number) :
  existsb isnull (hoehe <$> rows data) = false → dropna data = data.
Proof.
  intros H. destruct data as [cols rs]. unfold dropna. simpl in *. f_equal.
  apply filter_all. induction rs as [| r rs IH]; [done |].
  simpl in H. apply orb_false_iff in H as [Hr H].
  constructor; [by rewrite Hr | by apply IH].
Qed.

(** What [prepare_data] returns when it returns a frame: the uploaded rows,
    converted one by one, without those whose [hoehe] became NaN; the warning
    is shown exactly when there is such a row. *)
Lemma prepare_data_Some data d shown :
  prepare data = (Some d, shown) →
  ∃ full,
    Forall2 converted_to (rows data) full
    ∧ rows d = filter (λ r, negb (isnull (hoehe r))) full
    ∧ columns d = columns data
    ∧ shown = if existsb isnull (hoehe <$> full) then [st_warning dropped_hoehe]
              else [].
Proof.
  unfold prepare_data.
  repeat case_bool_decide; try done.
  destruct (to_datetime to_datetime_scalar (timestamp <$> rows data)) as [converted |] eqn:E; [| done].
  apply mapM_Some in E. apply set_columns_converts in E.
  unfold set_hoehe, set_timestamp, to_numeric. simpl.
  match goal with |- context [existsb isnull (hoehe <$> ?l)] => set (full := l) in * end.
  intros Hret. exists full. split; [done |].
  destruct (existsb isnull (hoehe <$> full)) eqn:Hnull.
  - injection Hret as <- <-. done.
  - injection Hret as <- <-. simpl.
    pose proof (dropna_notnull (Frame (columns data) full) Hnull) as Hd.
    unfold dropna in Hd. simpl in Hd. injection Hd as Hd. done.
Qed.

Lemma convert_datetime_None (c : cell) :
  convert c = None ↔ ∃ s, c = Some s ∧ to_datetime_scalar s = None.
Proof.
  unfold convert_datetime. destruct c as [s |].
  - rewrite fmap_None. split; [eauto | by intros (? & [= <-] & ?)].
  - split; [done | by intros (? & ? & _)].
Qed.

(** One unreadable timestamp and [prepare_data] returns nothing. *)
Lemma prepare_data_unreadable data :
  "timestamp" ∈ columns data → "hoehe" ∈ columns data →
  Exists (λ r, convert (timestamp r) = None) (rows data) →
  prepare data = (None, [st_error bad_timestamp]).
Proof.
  intros Ht Hh Hbad. unfold prepare_data.
  rewrite bool_decide_false by (by intros []).
  rewrite bool_decide_false by (by intros []).
  assert (E : to_datetime to_datetime_scalar (timestamp <$> rows data) = None).
  { apply mapM_None. by rewrite Exists_fmap. }
  by rewrite E.
Qed.

(** With both columns there and every timestamp readable it returns a frame. *)
Lemma prepare_data_readable data :
  "timestamp" ∈ columns data → "hoehe" ∈ columns data →
  Forall (λ r, is_Some (convert (timestamp r))) (rows data) →
  ∃ d shown, prepare data = (Some d, shown).
Proof.
  intros Ht Hh Hok. unfold prepare_data.
  rewrite bool_decide_false by (by intros []).
  rewrite bool_decide_false by (by intros []).
  assert (E : is_Some (to_datetime to_datetime_scalar (timestamp <$> rows data))).
  { apply mapM_is_Some. by rewrite Forall_fmap. }
  destruct E as [converted ->]. cbv zeta.
  destruct (existsb isnull _); eauto.
Qed.

Lemma converts_filter (rs : list (row cell cell)) (fs : list (row datetime number)) :
  Forall2 converted_to rs fs →
  Forall2 converted_to
    (filter (λ r, negb (isnull (coerce (hoehe r)))) rs)
    (filter (λ r, negb (isnull (hoehe r))) fs).
Proof.
  induction 1 as [| r f rs fs Hrf _ IH]; [constructor |].
  rewrite !filter_cons. destruct Hrf as (Hi & Ht & Hh & Hl & Hr).
  rewrite Hh. destruct (decide _); [| done].
  constructor; [by repeat split | done].
Qed.

Lemma converts_index (rs : list (row cell cell)) (fs : list (row datetime number)) :
  Forall2 converted_to rs fs → index <$> fs = index <$> rs.
Proof.
  induction 1 as [| r f rs fs Hrf _ IH]; [done |].
  rewrite !fmap_cons, IH. by destruct Hrf as (-> & _).
Qed.

Lemma converts_instants (rs : list (row cell cell)) (fs : list (row datetime number)) :
  Forall2 converted_to rs fs →
  mapM convert (timestamp <$> rs) = Some (timestamp <$> fs).
Proof.
  intros H. apply mapM_Some. rewrite Forall2_fmap.
  eapply Forall2_impl; [done |]. by intros r f (_ & ? & _).
Qed.

(** C2, as the code has it. With both columns there, one timestamp that
    cannot be read makes [prepare_data] return nothing and show the
    conversion error, however many other timestamps can be read; when every
    timestamp that is there can be read, it returns a frame, and the rows of
    that frame are the uploaded rows whose [hoehe] is a number: no row is
    left out for its timestamp. *)
Theorem prepare_data_timestamps_all_or_nothing data :
  "timestamp" ∈ columns data →
  "hoehe" ∈ columns data →
  ((∃ r s, r ∈ rows data ∧ timestamp r = Some s ∧ to_datetime_scalar s = None) →
     prepare data = (None, [st_error bad_timestamp]))
  ∧ ((∀ r s, r ∈ rows data → timestamp r = Some s →
        is_Some (to_datetime_scalar s)) →
     ∃ d shown,
       prepare data = (Some d, shown)
       ∧ index <$> rows d
         = index <$> filter (λ r, negb (isnull (coerce (hoehe r)))) (rows data)).
Proof.
  intros Ht Hh. split.
  - intros (r & s & Hr & Hs & Hbad). apply prepare_data_unreadable; [done .. |].
    apply Exists_exists. exists r. split; [done |].
    apply convert_datetime_None. eauto.
  - intros Hok.
    destruct (prepare_data_readable data Ht Hh) as (d & shown & E).
    { apply Forall_forall. intros r Hr.
      destruct (convert (timestamp r)) eqn:Ec; [done |].
      apply convert_datetime_None in Ec as (s & Hs & Hbad).
      destruct (Hok r s Hr Hs) as [? ?]. congruence. }
    exists d, shown. split; [done |].
    apply prepare_data_Some in E as (full & Hfull & -> & _).
    by apply converts_index, converts_filter.
Qed.

(** The index labels of the returned frame are uploaded ones, in the order
    of the upload. *)
Lemma prepare_data_index_sublist data d shown :
  prepare data = (Some d, shown) →
  index <$> rows d `sublist_of` index <$> rows data.
Proof.
  intros (full & Hfull & Hrows & _)%prepare_data_Some.
  rewrite <- (converts_index _ _ Hfull), Hrows.
  apply fmap_sublist, sublist_filter.
Qed.

Lemma read_csv_index header body :
  index <$> rows (read_csv header body) = seq 0 (length body).
Proof.
  unfold read_csv. simpl. rewrite fmap_imap.
  rewrite <- (list_fmap_id (seq 0 (length body))).
  by rewrite <- (imap_seq_0 body id).
Qed.

(** The frame returned for an uploaded file has unique index labels. *)
Lemma prepare_data_read_csv_NoDup header body d shown :
  prepare (read_csv header body) = (Some d, shown) →
  NoDup (index <$> rows d).
Proof.
  intros Hsub%prepare_data_index_sublist.
  eapply sublist_NoDup; [| exact Hsub].
  rewrite read_csv_index. apply NoDup_seq.
Qed.

(** C3, as the code has it. [prepare_data] does not sort: the frame it
    returns has the uploaded rows in the order of the upload (their index
    labels are a sublist of the uploaded ones, their timestamps a sublist of
    the converted column); so it is in timestamp order whenever the upload
    was. *)
Theorem prepare_data_keeps_upload_order data d shown :
  prepare data = (Some d, shown) →
  ∃ converted,
    to_datetime to_datetime_scalar (timestamp <$> rows data) = Some converted
    ∧ index <$> rows d `sublist_of` index <$> rows data
    ∧ instants d `sublist_of` omap instant converted
    ∧ (Sorted Z.le (omap instant converted) → Sorted Z.le (instants d)).
Proof.
  intros (full & Hfull & Hrows & _)%prepare_data_Some.
  exists (timestamp <$> full).
  assert (Hsub : rows d `sublist_of` full).
  { rewrite Hrows. apply sublist_filter. }
  assert (Hinst : instants d `sublist_of` omap instant (timestamp <$> full)).
  { unfold instants.
    replace (omap instant (timestamp <$> full))
      with (omap (λ r : row datetime number, instant (timestamp r)) full).
    - by apply sublist_omap.
    - symmetry. apply omap_fmap. }
  split; [by apply converts_instants |].
  split.
  { rewrite <- (converts_index _ _ Hfull). by apply fmap_sublist. }
  split; [done |].
  intros Hs. by eapply Sorted_le_sublist.
Qed.

(** C8, as the code has it. One row whose [hoehe] cannot be read as a
    number, among rows that can be read: [prepare_data] returns a frame and
    shows the one fixed warning; the frame has every other row, in the order
    of the upload, with its index label and its entries converted, and it has
    not the unreadable row. *)
Theorem prepare_data_drops_the_unreadable_value data before bad after (s : string) :
  "timestamp" ∈ columns data →
  "hoehe" ∈ columns data →
  rows data = before ++ bad :: after →
  Forall (λ r, is_Some (convert (timestamp r)) ∧ coerce (hoehe r) ≠ NaN)
    (before ++ after) →
  is_Some (convert (timestamp bad)) →
  hoehe bad = Some s →
  to_numeric_scalar s = None →
  ∃ d,
    prepare data = (Some d, [st_warning dropped_hoehe])
    ∧ Forall2 (λ r r', converted_to r r' ∧ hoehe r' ≠ NaN)
        (before ++ after) (rows d)
    ∧ (index bad ∉ index <$> (before ++ after) →
       index bad ∉ index <$> rows d).
Proof.
  intros Ht Hh Hrows Hvalid Hbt Hbv Hbs.
  apply Forall_app in Hvalid as [Hbefore Hafter].
  destruct (prepare_data_readable data Ht Hh) as (d & shown & E).
  { rewrite Hrows. apply Forall_app. split; [| constructor; [done |]].
    - eapply Forall_impl; [done |]. by intros r [? _].
    - eapply Forall_impl; [done |]. by intros r [? _]. }
  exists d. rewrite E.
  apply prepare_data_Some in E as (full & Hfull & Hd & _ & ->).
  rewrite Hrows in Hfull.
  apply Forall2_app_inv_l in Hfull as (f1 & f' & H1 & H' & ->).
  apply Forall2_cons_inv_l in H' as (fb & f2 & Hb & H2 & ->).
  assert (Hnan : hoehe fb = NaN).
  { destruct Hb as (_ & _ & -> & _). unfold coerce_numeric.
    rewrite Hbv. simpl. by rewrite Hbs. }
  assert (Hkeep : ∀ rs fs,
    Forall (λ r, is_Some (convert (timestamp r)) ∧ coerce (hoehe r) ≠ NaN) rs →
    Forall2 converted_to rs fs →
    filter (λ r : row datetime number, negb (isnull (hoehe r))) fs = fs
    ∧ Forall2 (λ r r', converted_to r r' ∧ hoehe r' ≠ NaN) rs fs).
  { intros rs fs Hv Hc. induction Hc as [| r f rs fs Hrf _ IH]; [done |].
    apply Forall_cons in Hv as [[_ Hr] Hv]. destruct (IH Hv) as [IH1 IH2].
    assert (Hf : hoehe f ≠ NaN) by (by destruct Hrf as (_ & _ & -> & _)).
    split.
    - rewrite filter_cons_True, IH1; [done |]. by destruct (hoehe f).
    - by constructor. }
  destruct (Hkeep _ _ Hbefore H1) as [E1 K1].
  destruct (Hkeep _ _ Hafter H2) as [E2 K2].
  assert (Hd' : rows d = f1 ++ f2).
  { rewrite Hd, filter_app, filter_cons_False, E1, E2; [done |].
    rewrite Hnan. by intros []. }
  split.
  { f_equal. rewrite !fmap_app, fmap_cons, existsb_app. simpl.
    by rewrite Hnan, orb_true_r. }
  split.
  { rewrite Hd'. by apply Forall2_app. }
  intros Hnot. rewrite Hd', fmap_app.
  rewrite (converts_index before f1), (converts_index after f2), <- fmap_app.
  - done.
  - eapply Forall2_impl; [exact K2 |]. by intros ? ? [? _].
  - eapply Forall2_impl; [exact K1 |]. by intros ? ? [? _].
Qed.

End prepare_claims.

Example prepare_data_scenario1 :
  prepare_data clock decimal scenario1 = (Some series1, []).
Proof. reflexivity. Qed.

Lemma prepare_data_one_bad_timestamp :
  "timestamp" ∈ columns one_bad_timestamp
  ∧ "hoehe" ∈ columns one_bad_timestamp
  ∧ ((∃ r s, r ∈ rows one_bad_timestamp ∧ timestamp r = Some s ∧ clock s = None) →
       prepare_data clock decimal one_bad_timestamp
       = (None, [st_error bad_timestamp]))
  ∧ ((∀ r s, r ∈ rows one_bad_timestamp → timestamp r = Some s →
        is_Some (clock s)) →
     ∃ d shown,
       prepare_data clock decimal one_bad_timestamp = (Some d, shown)
       ∧ index <$> rows d
         = index <$> filter (λ r, negb (isnull (coerce_numeric decimal (hoehe r))))
                       (rows one_bad_timestamp)).
Proof.
  assert (Ht : "timestamp" ∈ columns one_bad_timestamp) by by_computation.
  assert (Hh : "hoehe" ∈ columns one_bad_timestamp) by by_computation.
  split; [exact Ht |]. split; [exact Hh |].
  exact (prepare_data_timestamps_all_or_nothing clock decimal one_bad_timestamp Ht Hh).
Defined.

(** The claim of C2 fails on [one_bad_timestamp]: two of its three timestamps
    can be read, and [prepare_data] returns nothing all the same. *)
Lemma one_unreadable_timestamp_rejects_the_table :
  clock "09:00" = Some at_0900
  ∧ clock "13:00" = Some at_1300
  ∧ clock "abc" = None
  ∧ prepare_data clock decimal one_bad_timestamp
    = (None, [st_error bad_timestamp]).
Proof. repeat split; reflexivity. Qed.

Lemma prepare_data_keeps_order_scenario1 :
  prepare_data clock decimal scenario1 = (Some series1, [])
  ∧ ∃ converted,
      to_datetime clock (timestamp <$> rows scenario1) = Some converted
      ∧ index <$> rows series1 `sublist_of` index <$> rows scenario1
      ∧ instants series1 `sublist_of` omap instant converted
      ∧ (Sorted Z.le (omap instant converted) → Sorted Z.le (instants series1)).
Proof.
  split; [reflexivity |].
  apply (prepare_data_keeps_upload_order clock decimal scenario1 series1 []).
  reflexivity.
Defined.

(** The claim of C3 fails on [out_of_order]: the frame [prepare_data] returns
    has 13:00 before 09:00, as the upload had. *)
Lemma out_of_order_stays_out_of_order :
  ∃ d,
    prepare_data clock decimal out_of_order = (Some d, [])
    ∧ instants d = [at_1300; at_0900]
    ∧ ¬ Sorted Z.le (instants d).
Proof.
  eexists. split; [reflexivity |]. split; [reflexivity |].
  intros Hs. apply Sorted_inv in Hs as [_ Hhd].
  apply HdRel_inv in Hhd. vm_compute in Hhd. by apply Hhd.
Qed.

Lemma prepare_data_one_bad_value :
  ∃ d,
    prepare_data clock decimal one_bad_value = (Some d, [st_warning dropped_hoehe])
    ∧ Forall2 (λ r r', converts clock decimal r r' ∧ hoehe r' ≠ NaN)
        ([Row 0 (Some "09:00") (Some "1.0") None []]
         ++ [Row 2 (Some "13:00") (Some "3.0") None []]) (rows d)
    ∧ (1%nat ∉ index <$> ([Row 0 (Some "09:00") (Some "1.0") None []]
                     ++ [Row 2 (Some "13:00") (Some "3.0") None []] : list (row cell cell)) →
       1%nat ∉ index <$> rows d).
Proof.
  apply (prepare_data_drops_the_unreadable_value clock decimal one_bad_value
           [Row 0 (Some "09:00") (Some "1.0") None []]
           (Row 1 (Some "09:30") (Some "abc") None [])
           [Row 2 (Some "13:00") (Some "3.0") None []] "abc").
  - by_computation.
  - by_computation.
  - reflexivity.
  - simpl. repeat apply Forall_cons_2; [| | apply Forall_nil_2];
      (split; [by eexists | by vm_compute]).
  - by eexists.
  - reflexivity.
  - reflexivity.
Defined.

(** The claim of C8 fails where it has the caller told how many rows were
    dropped: of three uploaded rows [one_bad_value] loses one and
    [two_bad_values] loses two, and what [prepare_data] shows is the same. *)
Lemma the_warning_has_no_count :
  length (rows one_bad_value) = 3%nat
  ∧ length (rows two_bad_values) = 3%nat
  ∧ (length ∘ rows) <$> fst (prepare_data clock decimal one_bad_value) = Some 2%nat
  ∧ (length ∘ rows) <$> fst (prepare_data clock decimal two_bad_values) = Some 1%nat
  ∧ snd (prepare_data clock decimal one_bad_value) = [st_warning dropped_hoehe]
  ∧ snd (prepare_data clock decimal two_bad_values) = [st_warning dropped_hoehe].
Proof. repeat split; reflexivity. Qed.

(** ** One run of [main] *)

Lemma update_session_state_x_start (x : Z) (session_state : gmap string Z) :
  update_session_state x session_state !! "x_start" = Some x.
Proof.
  unfold update_session_state.
  by rewrite lookup_insert_ne, lookup_insert_eq.
Qed.

Lemma update_session_state_x_end (x : Z) (session_state : gmap string Z) :
  update_session_state x session_state !! "x_end" = Some (x + two_hours).
Proof. unfold update_session_state. by rewrite lookup_insert_eq. Qed.

(** The slider of [clamping] keeps within the bounds it is given. *)
Lemma clamping_within_bounds (x : Z) (choice : string) (pressed : bool)
    (min_value max_value value : Z) :
  min_value ≤ max_value →
  min_value ≤ slider (clamping x choice pressed) min_value max_value value
  ≤ max_value.
Proof. simpl. lia. Qed.

Section main_claims.

Variable to_datetime_scalar : string → option Z.
Variable to_numeric_scalar : string → option Q.

Local Abbreviation prepare := (prepare_data to_datetime_scalar to_numeric_scalar).
Local Abbreviation run := (main to_datetime_scalar to_numeric_scalar).

(** The page of a run whose frame has a timestamp: the run does not raise,
    also when the button is pressed. *)
Lemma main_Rendered ui data session_state d shown lo hi :
  prepare data = (Some d, shown) →
  timestamp_min d = Some lo →
  timestamp_max d = Some hi →
  ∀ x, x = slider ui lo (hi - two_hours)
             (init_session_state lo session_state !!! "x_start") →
  run ui (Some data) session_state
  = Rendered
      (Page (update_session_state x (init_session_state lo session_state))
         (Chart (select d x (x + two_hours)) (x, x + two_hours))
         (selection_interval "brush")
         (if button ui then
            Frame (with_Label (columns d))
              (write_Label (index <$> select d x (x + two_hours))
                 (selectbox ui label_options) (rows d))
          else d)
         (if button ui then
            (shown ++ [st_info use_selection])
            ++ [st_success (assigned (selectbox ui label_options))]
          else shown ++ [st_info use_selection])).
Proof.
  intros Hprep Hmin Hmax x ->. unfold main.
  rewrite Hprep, Hmin, Hmax. cbv zeta.
  rewrite !(lookup_total_correct _ _ _ (update_session_state_x_start _ _)).
  rewrite !(lookup_total_correct _ _ _ (update_session_state_x_end _ _)).
  unfold create_interactive_plot.
  destruct (button ui); [| done].
  rewrite assign_label_Ok; [done |].
  by eapply timestamp_min_rows.
Qed.

(** Without any timestamp the run of an accepted table ends in the
    exception: the label assignment is only reached on a frame with rows. *)
Lemma main_without_timestamp ui data session_state d shown :
  prepare data = (Some d, shown) →
  timestamp_min d = None →
  run ui (Some data) session_state = Raised.
Proof. intros Hprep Hmin. unfold main. by rewrite Hprep, Hmin. Qed.

(** C4, as the code has it. A run on a frame with a timestamp renders, and
    its window starts at the very value the slider returned, for the bounds
    [min_time] and [max_time - two_hours] it was given, and ends two hours
    later; the rows drawn are the rows of that window.  The start is within
    the bounds when the slider keeps within the bounds it is given. *)
Theorem window_start_is_the_slider_value ui data session_state d shown lo hi :
  prepare data = (Some d, shown) →
  timestamp_min d = Some lo →
  timestamp_max d = Some hi →
  ∃ p x,
    run ui (Some data) session_state = Rendered p
    ∧ x = slider ui lo (hi - two_hours)
            (init_session_state lo session_state !!! "x_start")
    ∧ session_state_after p !! "x_start" = Some x
    ∧ session_state_after p !! "x_end" = Some (x + two_hours)
    ∧ title (shown_chart p) = (x, x + two_hours)
    ∧ drawn (shown_chart p) = select d x (x + two_hours)
    ∧ (lo ≤ hi - two_hours →
       (∀ min_value max_value value, min_value ≤ max_value →
          min_value ≤ slider ui min_value max_value value ≤ max_value) →
       lo ≤ x ≤ hi - two_hours).
Proof.
  intros Hprep Hmin Hmax. eexists _, _.
  split; [by eapply main_Rendered |]. simpl.
  split; [done |].
  split; [apply update_session_state_x_start |].
  split; [apply update_session_state_x_end |].
  split; [done |]. split; [done |].
  intros Hspan Hslider. by apply Hslider.
Qed.

(** C10. When the button is pressed in a run on a frame with unique index
    labels and a timestamp, the rows that get the label are the rows drawn in
    the chart, which are the rows whose timestamp lies between the window's
    start and its end, both included; every other row stays as it is.  The
    selection parameter is made and put on the page, and the interval the
    user dragged changes nothing of the run. *)
Theorem label_goes_to_the_visible_window ui data session_state d shown lo :
  NoDup (index <$> rows data) →
  prepare data = (Some d, shown) →
  timestamp_min d = Some lo →
  button ui = true →
  ∃ p x_start x_end,
    run ui (Some data) session_state = Rendered p
    ∧ session_state_after p !! "x_start" = Some x_start
    ∧ session_state_after p !! "x_end" = Some x_end
    ∧ drawn (shown_chart p) = select d x_start x_end
    ∧ (∀ r, r ∈ drawn (shown_chart p) ↔
         r ∈ rows d ∧ ∃ t, timestamp r = Timestamp t ∧ x_start ≤ t ≤ x_end)
    ∧ Forall2 (λ r r',
        (r ∈ drawn (shown_chart p) →
           r' = set_Label (selectbox ui label_options) r)
        ∧ (r ∉ drawn (shown_chart p) → r' = r))
        (rows d) (rows (labeled_data p))
    ∧ chart_selection p = selection_interval "brush"
    ∧ ∀ interval,
        run (Widgets (slider ui) (selectbox ui) (button ui) interval)
          (Some data) session_state
        = Rendered p.
Proof.
  intros Hnd Hprep Hmin Hbutton.
  destruct (timestamp_min_max d lo Hmin) as [hi Hmax].
  set (x := slider ui lo (hi - two_hours)
              (init_session_state lo session_state !!! "x_start")).
  pose proof (main_Rendered ui data session_state d shown lo hi
                Hprep Hmin Hmax x eq_refl) as Hrun.
  rewrite Hbutton in Hrun.
  eexists _, x, (x + two_hours). split; [exact Hrun |]. simpl.
  split; [apply update_session_state_x_start |].
  split; [apply update_session_state_x_end |].
  split; [done |].
  split.
  { intros r. rewrite elem_of_select, in_range_spec. tauto. }
  split; [| split; [done | intros interval; exact Hrun]].
  assert (Hnd' : NoDup (index <$> rows d)).
  { eapply sublist_NoDup; [exact Hnd |].
    by eapply prepare_data_index_sublist. }
  unfold write_Label. apply Forall2_fmap_r, Forall_Forall2_diag, Forall_forall.
  intros r Hr. unfold compose.
  pose proof (select_index d x (x + two_hours) r Hnd' Hr) as Hsel.
  rewrite <- (elem_of_select_rows d x (x + two_hours) r Hr) in Hsel.
  case_bool_decide as Hin.
  - split; [done |]. intros Hout. destruct Hout. by apply Hsel.
  - split; [| done]. intros Hdrawn. destruct Hin. by apply Hsel.
Qed.

End main_claims.

Lemma window_of_a_clamping_slider :
  prepare_data clock decimal scenario1 = (Some series1, [])
  ∧ timestamp_min series1 = Some at_0900
  ∧ timestamp_max series1 = Some at_1300
  ∧ ∃ p x,
      main clock decimal (clamping at_1300 "Normal" false) (Some scenario1) ∅
      = Rendered p
      ∧ session_state_after p !! "x_start" = Some x
      ∧ session_state_after p !! "x_end" = Some (x + two_hours)
      ∧ at_0900 ≤ x ≤ at_1300 - two_hours.
Proof.
  split; [reflexivity |]. split; [reflexivity |]. split; [reflexivity |].
  destruct (window_start_is_the_slider_value clock decimal
              (clamping at_1300 "Normal" false) scenario1 ∅ series1 []
              at_0900 at_1300 eq_refl eq_refl eq_refl)
    as (p & x & Hrun & _ & Hstart & Hend & _ & _ & Hin).
  exists p, x. split; [exact Hrun |]. split; [exact Hstart |].
  split; [exact Hend |]. apply Hin.
  - by vm_compute.
  - intros min_value max_value value Hle. apply clamping_within_bounds, Hle.
Defined.

(** The claim of C4 fails on the first scenario, whose rows span four
    hours: when the slider hands midnight to the script, the window starts at
    midnight, before the first row. *)
Lemma slider_value_is_not_clamped :
  timestamp_min series1 = Some at_0900
  ∧ timestamp_max series1 = Some at_1300
  ∧ at_0900 + two_hours < at_1300
  ∧ ∃ p,
      main clock decimal (requesting 0 "Normal" false) (Some scenario1) ∅
      = Rendered p
      ∧ session_state_after p !! "x_start" = Some 0
      ∧ ¬ (at_0900 ≤ 0 ≤ at_1300 - two_hours).
Proof.
  split; [reflexivity |]. split; [reflexivity |]. split; [reflexivity |].
  eexists. split.
  - apply (main_Rendered clock decimal (requesting 0 "Normal" false) scenario1 ∅
             series1 [] at_0900 at_1300 eq_refl eq_refl eq_refl 0 eq_refl).
  - simpl. split; [apply update_session_state_x_start |].
    intros [H _]. vm_compute in H. by apply H.
Qed.

Lemma label_goes_to_the_window_scenario1 :
  NoDup (index <$> rows scenario1)
  ∧ prepare_data clock decimal scenario1 = (Some series1, [])
  ∧ timestamp_min series1 = Some at_0900
  ∧ button (requesting at_0900 "Warning" true) = true
  ∧ ∃ p x_start x_end,
      main clock decimal (requesting at_0900 "Warning" true) (Some scenario1) ∅
      = Rendered p
      ∧ session_state_after p !! "x_start" = Some x_start
      ∧ session_state_after p !! "x_end" = Some x_end
      ∧ drawn (shown_chart p) = select series1 x_start x_end
      ∧ (∀ r, r ∈ drawn (shown_chart p) ↔
           r ∈ rows series1
           ∧ ∃ t, timestamp r = Timestamp t ∧ x_start ≤ t ≤ x_end)
      ∧ Forall2 (λ r r',
          (r ∈ drawn (shown_chart p) →
             r' = set_Label
                    (selectbox (requesting at_0900 "Warning" true) label_options) r)
          ∧ (r ∉ drawn (shown_chart p) → r' = r))
          (rows series1) (rows (labeled_data p))
      ∧ chart_selection p = selection_interval "brush"
      ∧ ∀ interval,
          main clock decimal
            (Widgets (slider (requesting at_0900 "Warning" true))
               (selectbox (requesting at_0900 "Warning" true))
               (button (requesting at_0900 "Warning" true)) interval)
            (Some scenario1) ∅
          = Rendered p.
Proof.
  assert (Hnd : NoDup (index <$> rows scenario1)) by by_computation.
  split; [exact Hnd |].
  split; [reflexivity |]. split; [reflexivity |]. split; [reflexivity |].
  apply (label_goes_to_the_visible_window clock decimal
           (requesting at_0900 "Warning" true) scenario1 ∅ series1 [] at_0900
           Hnd eq_refl eq_refl eq_refl).
Defined.

(** What the run of the third scenario leaves on the page. *)
Example main_scenario3 :
  ∃ p,
    main clock decimal (requesting at_0900 "Warning" true) (Some scenario1) ∅
    = Rendered p
    ∧ title (shown_chart p) = (at_0900, at_0900 + two_hours)
    ∧ index <$> drawn (shown_chart p) = [0%nat; 1%nat]
    ∧ Label <$> rows (labeled_data p) = [Some "Warning"; Some "Warning"; None].
Proof.
  eexists. split.
  - apply (main_Rendered clock decimal (requesting at_0900 "Warning" true)
             scenario1 ∅ series1 [] at_0900 at_1300
             eq_refl eq_refl eq_refl at_0900 eq_refl).
  - repeat split; reflexivity.
Qed.

(** A first run on the short table: the window of the page reaches from
    09:00 to 11:00 and both rows are drawn. *)
Example main_short_table :
  ∃ p,
    main clock decimal (requesting at_0900 "Normal" false) (Some short_table) ∅
    = Rendered p
    ∧ title (shown_chart p) = (at_0900, at_0900 + two_hours)
    ∧ drawn (shown_chart p) = rows short_series.
Proof.
  eexists. split.
  - apply (main_Rendered clock decimal (requesting at_0900 "Normal" false)
             short_table ∅ short_series [] at_0900 at_0930
             eq_refl eq_refl eq_refl at_0900 eq_refl).
  - split; reflexivity.
Qed.

Lemma write_twice_series1 :
  rows series1 ≠ []
  ∧ [0%nat; 1%nat] ⊆ index <$> rows series1
  ∧ ∃ once,
      loc_set_Label series1 [0%nat; 1%nat] "Warning" = Ok once
      ∧ loc_set_Label once [0%nat; 1%nat] "Warning" = Ok once
      ∧ ∃ twice,
          loc_set_Label once [0%nat; 1%nat] "Error" = Ok twice
          ∧ loc_set_Label series1 [0%nat; 1%nat] "Error" = Ok twice
          ∧ ∀ r, r ∈ rows twice → index r ∈ [0%nat; 1%nat] → Label r = Some "Error".
Proof.
  assert (Hsub : [0%nat; 1%nat] ⊆ index <$> rows series1) by by_computation.
  split; [done |]. split; [exact Hsub |].
  apply (loc_set_Label_idempotent_last_write_wins series1 [0%nat; 1%nat]
           "Warning" "Error"); [done | exact Hsub].
Defined.

Lemma write_frame_series1 :
  rows series1 ≠ []
  ∧ [0%nat; 1%nat] ⊆ index <$> rows series1
  ∧ ∃ data',
      loc_set_Label series1 [0%nat; 1%nat] "Warning" = Ok data'
      ∧ length (rows data') = length (rows series1)
      ∧ Forall2 (λ r r',
          index r' = index r ∧ timestamp r' = timestamp r
          ∧ hoehe r' = hoehe r ∧ rest r' = rest r
          ∧ (index r ∉ [0%nat; 1%nat] → r' = r))
          (rows series1) (rows data')
      ∧ columns series1 ⊆ columns data'
      ∧ ([0%nat; 1%nat] = [] → rows data' = rows series1)
      ∧ ([0%nat; 1%nat] = [] → "Label" ∈ columns series1 → data' = series1).
Proof.
  assert (Hsub : [0%nat; 1%nat] ⊆ index <$> rows series1) by by_computation.
  split; [done |]. split; [exact Hsub |].
  apply (loc_set_Label_frame series1 [0%nat; 1%nat] "Warning"); [done | exact Hsub].
Defined.

Lemma write_any_value_series1 :
  rows series1 ≠ []
  ∧ [0%nat; 1%nat] ⊆ index <$> rows series1
  ∧ ∃ data',
      loc_set_Label series1 [0%nat; 1%nat] "Idle" = Ok data'
      ∧ ∀ r', r' ∈ rows data' → index r' ∈ [0%nat; 1%nat] → Label r' = Some "Idle".
Proof.
  assert (Hsub : [0%nat; 1%nat] ⊆ index <$> rows series1) by by_computation.
  split; [done |]. split; [exact Hsub |].
  apply (loc_set_Label_any_value series1 [0%nat; 1%nat] "Idle"); [done | exact Hsub].
Defined.

(** The claim of C7 fails on the first scenario: [Idle] is none of the
    offered labels, and writing it raises nothing and changes the frame. *)
Lemma unknown_label_is_written :
  ("Idle" ∉ label_options)
  ∧ ∃ data',
      loc_set_Label series1 [0%nat; 1%nat] "Idle" = Ok data'
      ∧ Label <$> rows data' = [Some "Idle"; Some "Idle"; None]
      ∧ data' ≠ series1.
Proof.
  split; [by_computation |].
  eexists. split; [reflexivity |]. split; [reflexivity |]. discriminate.
Qed.

(** An empty list of index labels on the first scenario: no row changes. *)
Example write_nothing_series1 :
  ∃ data',
    loc_set_Label series1 [] "Warning" = Ok data'
    ∧ rows data' = rows series1.
Proof. eexists. split; reflexivity. Qed.

(** The two ways the write raises: an index label the frame has not, and a
    new column for a frame without rows. *)
Example write_unknown_index_label :
  loc_set_Label series1 [7%nat] "Warning" = Raise KeyError.
Proof. reflexivity. Qed.

Example write_to_no_rows :
  loc_set_Label (Frame ["timestamp"; "hoehe"] [] : DataFrame datetime number)
    [] "Warning"
  = Raise ValueError.
Proof. reflexivity. Qed.

(** * Further properties of the script *)

(** ** What [prepare_data] rejects and what it returns *)

Lemma filter_notnull_length (full : list (row datetime number)) :
  (existsb isnull (hoehe <$> full) = true →
   (length (filter (λ r, negb (isnull (hoehe r))) full) < length full)%nat)
  ∧ (existsb isnull (hoehe <$> full) = false →
     filter (λ r, negb (isnull (hoehe r))) full = full).
Proof.
  induction full as [| r full [IHt IHf]]; [done |].
  rewrite fmap_cons. simpl. rewrite filter_cons.
  pose proof (length_filter (λ r : row datetime number, negb (isnull (hoehe r))) full).
  destruct (isnull (hoehe r)) eqn:E; simpl.
  - split; [intros _; lia | done].
  - split.
    + intros H'. simpl. apply IHt in H'. lia.
    + intros H'. by rewrite (IHf H').
Qed.

Section prepare_extras.

Variable to_datetime_scalar : string → option Z.
Variable to_numeric_scalar : string → option Q.

Local Abbreviation prepare := (prepare_data to_datetime_scalar to_numeric_scalar).
Local Abbreviation convert := (convert_datetime to_datetime_scalar).
Local Abbreviation converted_to :=
  (converts to_datetime_scalar to_numeric_scalar).

(** X1. [prepare_data] returns nothing exactly when a column is missing or
    a timestamp cannot be read, and then it shows one error and nothing else;
    a missing [timestamp] column is the one reported when both columns are
    missing, and a missing column is reported without looking at any row. *)
Theorem prepare_data_rejection data :
  (fst (prepare data) = None ↔
     "timestamp" ∉ columns data
     ∨ "hoehe" ∉ columns data
     ∨ ∃ r s, r ∈ rows data ∧ timestamp r = Some s
              ∧ to_datetime_scalar s = None)
  ∧ ("timestamp" ∉ columns data →
     prepare data = (None, [st_error missing_timestamp]))
  ∧ ("timestamp" ∈ columns data → "hoehe" ∉ columns data →
     prepare data = (None, [st_error missing_hoehe]))
  ∧ (fst (prepare data) = None → ∃ text, snd (prepare data) = [st_error text]).
Proof.
  assert (H1 : "timestamp" ∉ columns data →
               prepare data = (None, [st_error missing_timestamp])).
  { intros Ht. unfold prepare_data. by rewrite bool_decide_true. }
  assert (H2 : "timestamp" ∈ columns data → "hoehe" ∉ columns data →
               prepare data = (None, [st_error missing_hoehe])).
  { intros Ht Hh. unfold prepare_data.
    rewrite bool_decide_false by (by intros []). by rewrite bool_decide_true. }
  destruct (decide ("timestamp" ∈ columns data)) as [Ht | Ht];
    [| rewrite (H1 Ht); repeat split; intros; simpl; eauto; done].
  destruct (decide ("hoehe" ∈ columns data)) as [Hh | Hh];
    [| rewrite (H2 Ht Hh); repeat split; intros; simpl; eauto; done].
  destruct (decide (Forall (λ r, is_Some (convert (timestamp r))) (rows data)))
    as [Hok | Hbad].
  - destruct (prepare_data_readable to_datetime_scalar to_numeric_scalar
                data Ht Hh Hok) as (d & shown & E).
    rewrite E. simpl. repeat split; try done.
    intros [? | [? | (r & s & Hr & Hs & Hnone)]]; try done.
    rewrite Forall_forall in Hok. destruct (Hok r Hr) as [t Hsome].
    assert (Hc : convert (timestamp r) = None)
      by (apply convert_datetime_None; eauto).
    pose proof (eq_trans (eq_sym Hc) Hsome). discriminate.
  - apply not_Forall_Exists in Hbad; [| apply _].
    assert (Hex : Exists (λ r, convert (timestamp r) = None) (rows data)).
    { eapply Exists_impl; [exact Hbad |]. intros r Hr.
      destruct (convert (timestamp r)) eqn:E; [| done].
      destruct Hr. unfold compose. eauto. }
    rewrite (prepare_data_unreadable to_datetime_scalar to_numeric_scalar
               data Ht Hh Hex). simpl.
    repeat split; intros; simpl; eauto; try done.
    right. right.
    apply Exists_exists in Hex as (r & Hr & Hnone).
    apply convert_datetime_None in Hnone as (s & Hs & Hnone). eauto.
Qed.

(** X2. A frame returned by [prepare_data] has the columns of the upload
    and no NaN left in [hoehe]; each of its rows is an uploaded row, converted,
    with its index label, its label and the entries of its other columns. *)
Theorem prepare_data_returns_numbers data d shown :
  prepare_data to_datetime_scalar to_numeric_scalar data = (Some d, shown) →
  columns d = columns data
  ∧ Forall (λ r', ∃ q, hoehe r' = Num q) (rows d)
  ∧ Forall (λ r', ∃ r, r ∈ rows data ∧ converted_to r r') (rows d).
Proof.
  intros (full & Hfull & Hrows & Hcols & _)%prepare_data_Some.
  split; [done |]. rewrite Hrows. split.
  - apply Forall_forall. intros r' [Hr' _]%list_elem_of_filter.
    destruct (hoehe r') as [| q]; [done | eauto].
  - apply Forall_forall. intros r' [_ Hr']%list_elem_of_filter.
    apply list_elem_of_lookup in Hr' as [i Hi].
    destruct (Forall2_lookup_r _ _ _ _ _ Hfull Hi) as (r & Hr & Hc).
    exists r. split; [| done]. apply list_elem_of_lookup. eauto.
Qed.

(** X3. A frame returned by [prepare_data] never has more rows than the
    upload; the warning is shown exactly when it has fewer, and nothing is
    shown exactly when it has as many. *)
Theorem prepare_data_warns_iff_rows_are_lost data d shown :
  prepare_data to_datetime_scalar to_numeric_scalar data = (Some d, shown) →
  (length (rows d) ≤ length (rows data))%nat
  ∧ (shown = [st_warning dropped_hoehe] ↔
     (length (rows d) < length (rows data))%nat)
  ∧ (shown = [] ↔ length (rows d) = length (rows data)).
Proof.
  intros (full & Hfull & Hrows & _ & Hshown)%prepare_data_Some.
  apply Forall2_length in Hfull. rewrite Hfull, Hrows, Hshown.
  destruct (filter_notnull_length full) as [Ht Hf].
  destruct (existsb isnull (hoehe <$> full)) eqn:E.
  - specialize (Ht eq_refl). split; [lia |]. split; [done |].
    split; [done | lia].
  - rewrite (Hf eq_refl). split; [lia |]. split; [| done].
    split; [done | lia].
Qed.

End prepare_extras.

Lemma prepare_data_returns_numbers_one_bad_value :
  ∃ d,
    prepare_data clock decimal one_bad_value = (Some d, [st_warning dropped_hoehe])
    ∧ columns d = columns one_bad_value
    ∧ Forall (λ r', ∃ q, hoehe r' = Num q) (rows d)
    ∧ Forall (λ r', ∃ r, r ∈ rows one_bad_value ∧ converts clock decimal r r')
        (rows d).
Proof.
  eexists. split; [reflexivity |].
  eapply (prepare_data_returns_numbers clock decimal one_bad_value).
  reflexivity.
Defined.

Lemma prepare_data_warns_two_bad_values :
  ∃ d,
    prepare_data clock decimal two_bad_values = (Some d, [st_warning dropped_hoehe])
    ∧ (length (rows d) ≤ length (rows two_bad_values))%nat
    ∧ ([st_warning dropped_hoehe] = [st_warning dropped_hoehe] ↔
       (length (rows d) < length (rows two_bad_values))%nat)
    ∧ ([st_warning dropped_hoehe] = [] ↔
       length (rows d) = length (rows two_bad_values)).
Proof.
  eexists. split; [reflexivity |].
  eapply (prepare_data_warns_iff_rows_are_lost clock decimal two_bad_values).
  reflexivity.
Defined.

(** ** The bounds of the slider and the rows of a range *)

Lemma foldr_min_elem (t : Z) (ts : list Z) : foldr Z.min t ts ∈ t :: ts.
Proof.
  induction ts as [| a ts IH]; simpl; [left |].
  destruct (Z.min_spec a (foldr Z.min t ts)) as [[_ ->] | [_ ->]].
  - right. left.
  - apply elem_of_cons in IH as [-> | IH]; [left | right; by right].
Qed.

Lemma foldr_max_elem (t : Z) (ts : list Z) : foldr Z.max t ts ∈ t :: ts.
Proof.
  induction ts as [| a ts IH]; simpl; [left |].
  destruct (Z.max_spec a (foldr Z.max t ts)) as [[_ ->] | [_ ->]].
  - apply elem_of_cons in IH as [-> | IH]; [left | right; by right].
  - right. left.
Qed.

Section range_extras.

Context {V : Type}.
Implicit Types (data : DataFrame datetime V) (r : row datetime V).

Lemma elem_of_instants_inv data t :
  t ∈ instants data → ∃ r, r ∈ rows data ∧ timestamp r = Timestamp t.
Proof.
  unfold instants. intros (r & Hr & Ht)%list_elem_of_omap.
  exists r. split; [done |].
  destruct (timestamp r) as [| t']; simpl in Ht; [done | by injection Ht as ->].
Qed.

(** X4. The bounds the slider is set up with come from the rows: the
    minimum and the maximum are timestamps of rows of the frame, every
    timestamp of the frame lies between them, and the minimum is no later
    than the maximum. *)
Theorem timestamp_min_max_are_rows data lo hi :
  timestamp_min data = Some lo →
  timestamp_max data = Some hi →
  (∃ r, r ∈ rows data ∧ timestamp r = Timestamp lo)
  ∧ (∃ r, r ∈ rows data ∧ timestamp r = Timestamp hi)
  ∧ (∀ r t, r ∈ rows data → timestamp r = Timestamp t → lo ≤ t ≤ hi)
  ∧ lo ≤ hi.
Proof.
  intros Hmin Hmax.
  assert (Hlo : ∃ r, r ∈ rows data ∧ timestamp r = Timestamp lo).
  { apply elem_of_instants_inv. unfold timestamp_min in Hmin.
    destruct (instants data) as [| t ts]; [done |].
    injection Hmin as <-. apply foldr_min_elem. }
  assert (Hhi : ∃ r, r ∈ rows data ∧ timestamp r = Timestamp hi).
  { apply elem_of_instants_inv. unfold timestamp_max in Hmax.
    destruct (instants data) as [| t ts]; [done |].
    injection Hmax as <-. apply foldr_max_elem. }
  assert (Hall : ∀ r t, r ∈ rows data → timestamp r = Timestamp t → lo ≤ t ≤ hi).
  { intros r t Hr Ht. split.
    - by eapply timestamp_min_le.
    - by eapply timestamp_max_ge. }
  split; [done |]. split; [done |]. split; [done |].
  destruct Hlo as (r0 & Hr0 & Ht0). by destruct (Hall r0 lo Hr0 Ht0).
Qed.

(** X5. A wider range selects more: the rows of a range are, in their
    order, among the rows of every range that contains it, and these are, in
    their order, among the rows of the frame. *)
Theorem select_is_monotone data lo hi lo' hi' :
  lo' ≤ lo →
  hi ≤ hi' →
  select data lo hi `sublist_of` select data lo' hi'
  ∧ select data lo' hi' `sublist_of` rows data.
Proof.
  intros Hlo Hhi. split; [| apply sublist_filter].
  unfold select. induction (rows data) as [| r rs IH]; [done |].
  rewrite !filter_cons.
  destruct (decide (in_range lo hi r)) as [Hin | Hout].
  - rewrite decide_True; [by apply sublist_skip |].
    apply in_range_spec in Hin as (t & Ht & Hle).
    apply in_range_spec. exists t. split; [done | lia].
  - destruct (decide (in_range lo' hi' r)); [by apply sublist_cons | done].
Qed.

(** X6. A range that ends before it starts has no row, and the assignment
    for it changes no row of a frame that has rows. *)
Theorem inverted_range_selects_nothing data lo hi (selected_label : string) :
  hi < lo →
  rows data ≠ [] →
  select data lo hi = []
  ∧ ∃ data',
      assign_label data lo hi selected_label = Ok data'
      ∧ rows data' = rows data.
Proof.
  intros Hinv Hrows.
  assert (Hnone : select data lo hi = []).
  { unfold select. apply filter_none, Forall_forall.
    intros r _ (t & _ & Hle)%in_range_spec. lia. }
  split; [done |]. eexists. split; [by apply assign_label_Ok |].
  simpl. rewrite Hnone. apply write_Label_nil.
Qed.

(** X7. Both ends of a window belong to it, so a row at the instant where
    one two-hour window ends is also a row of the window that starts there:
    windows laid end to end share the rows at the joint. *)
Theorem consecutive_windows_share_the_joint data x r :
  r ∈ rows data →
  timestamp r = Timestamp (x + two_hours) →
  r ∈ select data x (x + two_hours)
  ∧ r ∈ select data (x + two_hours) (x + two_hours + two_hours).
Proof.
  intros Hr Ht. rewrite !elem_of_select, !in_range_spec.
  assert (0 < two_hours) by done.
  split; (split; [exists (x + two_hours); split; [done | lia] | done]).
Qed.

(** X8. The assignment of the button never raises a [KeyError], for the
    labels it writes at are index labels of the frame; the one way it raises
    is the [ValueError] for a frame without rows and without a column
    [Label]. *)
Theorem assign_label_raises_only_without_rows data lo hi
    (selected_label : string) (e : exception) :
  assign_label data lo hi selected_label = Raise e ↔
  e = ValueError ∧ rows data = [] ∧ "Label" ∉ columns data.
Proof.
  unfold assign_label, loc_set_Label.
  rewrite bool_decide_true by apply select_index_subseteq.
  case_bool_decide as Hcol.
  - split; [done | by intros (_ & _ & ?)].
  - destruct (rows data) as [| r rs] eqn:E.
    + split; [by intros [= <-] | by intros (-> & _)].
    + split; [done | by intros (_ & ? & _)].
Qed.

End range_extras.

Lemma timestamp_min_max_series1 :
  timestamp_min series1 = Some at_0900
  ∧ timestamp_max series1 = Some at_1300
  ∧ (∃ r, r ∈ rows series1 ∧ timestamp r = Timestamp at_0900)
  ∧ (∃ r, r ∈ rows series1 ∧ timestamp r = Timestamp at_1300)
  ∧ (∀ r t, r ∈ rows series1 → timestamp r = Timestamp t →
       at_0900 ≤ t ≤ at_1300)
  ∧ at_0900 ≤ at_1300.
Proof.
  split; [reflexivity |]. split; [reflexivity |].
  apply (timestamp_min_max_are_rows series1 at_0900 at_1300); reflexivity.
Defined.

Lemma select_is_monotone_series1 :
  at_0900 ≤ at_0930
  ∧ at_0930 ≤ at_1300
  ∧ select series1 at_0930 at_0930 `sublist_of` select series1 at_0900 at_1300
  ∧ select series1 at_0900 at_1300 `sublist_of` rows series1.
Proof.
  assert (H1 : at_0900 ≤ at_0930) by done.
  assert (H2 : at_0930 ≤ at_1300) by done.
  split; [exact H1 |]. split; [exact H2 |].
  apply (select_is_monotone series1 at_0930 at_0930 at_0900 at_1300 H1 H2).
Defined.

Lemma inverted_range_series1 :
  at_0900 < at_1300
  ∧ rows series1 ≠ []
  ∧ select series1 at_1300 at_0900 = []
  ∧ ∃ data',
      assign_label series1 at_1300 at_0900 "Warning" = Ok data'
      ∧ rows data' = rows series1.
Proof.
  assert (H1 : at_0900 < at_1300) by done.
  assert (H2 : rows series1 ≠ []) by done.
  split; [exact H1 |]. split; [exact H2 |].
  apply (inverted_range_selects_nothing series1 at_1300 at_0900 "Warning" H1 H2).
Defined.

(** Rows at 09:00 and at 11:00: the second is at the joint of the windows
    from 09:00 and from 11:00. *)
Lemma consecutive_windows_joint_row :
  Row 1 (Timestamp (at_0900 + two_hours)) (Num 2.0) None []
    ∈ rows (Frame ["timestamp"; "hoehe"]
              [Row 0 (Timestamp at_0900) (Num 1.0) None [];
               Row 1 (Timestamp (at_0900 + two_hours)) (Num 2.0) None []])
  ∧ Row 1 (Timestamp (at_0900 + two_hours)) (Num 2.0) None []
      ∈ select (Frame ["timestamp"; "hoehe"]
                  [Row 0 (Timestamp at_0900) (Num 1.0) None [];
                   Row 1 (Timestamp (at_0900 + two_hours)) (Num 2.0) None []])
          at_0900 (at_0900 + two_hours)
  ∧ Row 1 (Timestamp (at_0900 + two_hours)) (Num 2.0) None []
      ∈ select (Frame ["timestamp"; "hoehe"]
                  [Row 0 (Timestamp at_0900) (Num 1.0) None [];
                   Row 1 (Timestamp (at_0900 + two_hours)) (Num 2.0) None []])
          (at_0900 + two_hours) (at_0900 + two_hours + two_hours).
Proof.
  assert (Hr : Row 1 (Timestamp (at_0900 + two_hours)) (Num 2.0) None []
    ∈ rows (Frame ["timestamp"; "hoehe"]
              [Row 0 (Timestamp at_0900) (Num 1.0) None [];
               Row 1 (Timestamp (at_0900 + two_hours)) (Num 2.0) None []])).
  { simpl. right. left. }
  split; [exact Hr |].
  apply (consecutive_windows_share_the_joint _ at_0900 _ Hr eq_refl).
Defined.

(** ** The session state across runs *)

Lemma init_session_state_x_start (min_timestamp : Z) (session_state : gmap string Z) :
  init_session_state min_timestamp session_state !! "x_start"
  = Some (default min_timestamp (session_state !! "x_start")).
Proof.
  unfold init_session_state.
  destruct (session_state !! "x_start") as [x |] eqn:E; simpl.
  - rewrite (bool_decide_false ("x_start" ∉ dom session_state)).
    + case_bool_decide; [by rewrite lookup_insert_ne |done].
    + intros Hn. apply Hn, elem_of_dom. eauto.
  - rewrite (bool_decide_true ("x_start" ∉ dom session_state))
      by (by apply not_elem_of_dom).
    case_bool_decide; [rewrite lookup_insert_ne by done |];
      by rewrite lookup_insert_eq.
Qed.

Lemma init_session_state_other (min_timestamp : Z) (session_state : gmap string Z)
    (key : string) :
  key ≠ "x_start" → key ≠ "x_end" →
  init_session_state min_timestamp session_state !! key = session_state !! key.
Proof.
  intros H1 H2. unfold init_session_state.
  repeat case_bool_decide; by rewrite ?lookup_insert_ne.
Qed.

(** A session that has both keys is left as it is by lines 90 to 93. *)
Lemma init_session_state_both (min_timestamp : Z) (session_state : gmap string Z) :
  is_Some (session_state !! "x_start") → is_Some (session_state !! "x_end") →
  init_session_state min_timestamp session_state = session_state.
Proof.
  intros Hs He. unfold init_session_state.
  rewrite (bool_decide_false ("x_start" ∉ dom session_state)).
  - rewrite bool_decide_false; [done |].
    intros Hn. by apply Hn, elem_of_dom.
  - intros Hn. by apply Hn, elem_of_dom.
Qed.

Section session_extras.

Variable to_datetime_scalar : string → option Z.
Variable to_numeric_scalar : string → option Q.

Local Abbreviation prepare := (prepare_data to_datetime_scalar to_numeric_scalar).
Local Abbreviation run := (main to_datetime_scalar to_numeric_scalar).
Local Abbreviation converted_to :=
  (converts to_datetime_scalar to_numeric_scalar).

(** A run that renders a page had a frame with a timestamp. *)
Lemma main_Rendered_inv ui data session_state p :
  run ui (Some data) session_state = Rendered p →
  ∃ d shown lo hi,
    prepare data = (Some d, shown)
    ∧ timestamp_min d = Some lo
    ∧ timestamp_max d = Some hi.
Proof.
  unfold main.
  destruct (prepare data) as [[d |] shown] eqn:Hp; [| done].
  destruct (timestamp_min d) as [lo |] eqn:Hmin; [| done].
  destruct (timestamp_max d) as [hi |] eqn:Hmax; [| done].
  intros _. exists d, shown, lo, hi. repeat split; reflexivity || assumption.
Qed.

(** X9. Of the session state a run reads the key [x_start] and nothing
    else: two sessions with the same [x_start] (or both without one) give the
    same outcome, with the same chart, the same frame, the same messages and
    the same window.  What an earlier run stored under [x_end] is never read
    before it is overwritten. *)
Theorem run_reads_only_x_start ui uploaded (session_state session_state' : gmap string Z) :
  session_state !! "x_start" = session_state' !! "x_start" →
  match main to_datetime_scalar to_numeric_scalar ui uploaded session_state,
        main to_datetime_scalar to_numeric_scalar ui uploaded session_state' with
  | Rendered p, Rendered p' =>
      shown_chart p = shown_chart p'
      ∧ chart_selection p = chart_selection p'
      ∧ labeled_data p = labeled_data p'
      ∧ messages p = messages p'
      ∧ session_state_after p !! "x_start" = session_state_after p' !! "x_start"
      ∧ session_state_after p !! "x_end" = session_state_after p' !! "x_end"
  | Rendered _, _ | _, Rendered _ => False
  | outcome, outcome' => outcome = outcome'
  end.
Proof.
  intros Hx. destruct uploaded as [data |]; [| done].
  destruct (prepare data) as [[d |] shown] eqn:Hprep;
    [| by unfold main; rewrite Hprep].
  destruct (timestamp_min d) as [lo |] eqn:Hmin;
    [| by unfold main; rewrite Hprep, Hmin].
  destruct (timestamp_min_max d lo Hmin) as [hi Hmax].
  rewrite (main_Rendered _ _ ui data session_state d shown lo hi
             Hprep Hmin Hmax _ eq_refl).
  rewrite (main_Rendered _ _ ui data session_state' d shown lo hi
             Hprep Hmin Hmax _ eq_refl).
  rewrite !(lookup_total_correct _ _ _ (init_session_state_x_start _ _)).
  rewrite Hx. simpl.
  by rewrite !update_session_state_x_start, !update_session_state_x_end.
Qed.

(** X10. After a run that renders, the session holds a window of exactly
    two hours, and every other key of the session is as it was.  Lines 90 to
    93 leave such a session as it is: in the next run the slider is handed the
    start of this window, whatever the minimum timestamp of the table then
    uploaded. *)
Theorem window_is_kept_in_the_session ui data session_state p :
  main to_datetime_scalar to_numeric_scalar ui (Some data) session_state
  = Rendered p →
  ∃ x,
    session_state_after p !! "x_start" = Some x
    ∧ session_state_after p !! "x_end" = Some (x + two_hours)
    ∧ (∀ key, key ≠ "x_start" → key ≠ "x_end" →
         session_state_after p !! key = session_state !! key)
    ∧ ∀ min_timestamp,
        init_session_state min_timestamp (session_state_after p)
        = session_state_after p.
Proof.
  intros Hrun.
  destruct (main_Rendered_inv _ _ _ _ Hrun) as (d & shown & lo & hi & Hp & Hmin & Hmax).
  rewrite (main_Rendered _ _ ui data session_state d shown lo hi
             Hp Hmin Hmax _ eq_refl) in Hrun.
  injection Hrun as <-. simpl. eexists.
  split; [apply update_session_state_x_start |].
  split; [apply update_session_state_x_end |].
  split.
  - intros key H1 H2. unfold update_session_state.
    rewrite !lookup_insert_ne by done. by apply init_session_state_other.
  - intros m. apply init_session_state_both.
    + rewrite update_session_state_x_start. eauto.
    + rewrite update_session_state_x_end. eauto.
Qed.

(** X11. The labels on the page come from the upload or from this run:
    every row of the frame that is displayed is an uploaded row, with its
    index label and the entries of its other columns, and its label is the
    uploaded one unless the button was pressed, in which case it may be the
    label chosen in the select box. *)
Theorem labels_are_uploaded_or_chosen ui data session_state p :
  main to_datetime_scalar to_numeric_scalar ui (Some data) session_state
  = Rendered p →
  Forall (λ r',
    ∃ r, r ∈ rows data
      ∧ index r' = index r
      ∧ rest r' = rest r
      ∧ (Label r' = Label r
         ∨ (button ui = true ∧ Label r' = Some (selectbox ui label_options))))
    (rows (labeled_data p)).
Proof.
  intros Hrun.
  destruct (main_Rendered_inv _ _ _ _ Hrun) as (d & shown & lo & hi & Hp & Hmin & Hmax).
  rewrite (main_Rendered _ _ ui data session_state d shown lo hi
             Hp Hmin Hmax _ eq_refl) in Hrun.
  injection Hrun as <-. simpl.
  apply prepare_data_Some in Hp as (full & Hfull & Hrows & _).
  assert (Hd : ∀ r0, r0 ∈ rows d → ∃ r, r ∈ rows data ∧ converted_to r r0).
  { intros r0. rewrite Hrows. intros [_ Hr0]%list_elem_of_filter.
    apply list_elem_of_lookup in Hr0 as [i Hi].
    destruct (Forall2_lookup_r _ _ _ _ _ Hfull Hi) as (r & Hr & Hc).
    exists r. split; [| done]. apply list_elem_of_lookup. eauto. }
  apply Forall_forall. intros r' Hr'.
  destruct (button ui) eqn:Hb.
  - simpl in Hr'. unfold write_Label in Hr'.
    apply list_elem_of_fmap in Hr' as (r0 & -> & Hr0).
    destruct (Hd r0 Hr0) as (r & Hr & Hi & _ & _ & Hl & Hrest).
    exists r. split; [done |].
    case_bool_decide; simpl; eauto.
  - destruct (Hd r' Hr') as (r & Hr & Hi & _ & _ & Hl & Hrest).
    exists r. eauto.
Qed.

(** X12. A run loses no column and moves none: without the button the
    frame that is displayed is the frame [prepare_data] returned, with the
    columns of the upload; with the button its columns are those of the
    upload, followed by [Label] when the upload had no such column. *)
Theorem run_keeps_the_columns ui data session_state p :
  main to_datetime_scalar to_numeric_scalar ui (Some data) session_state
  = Rendered p →
  (button ui = false →
     fst (prepare_data to_datetime_scalar to_numeric_scalar data)
     = Some (labeled_data p)
     ∧ columns (labeled_data p) = columns data)
  ∧ (button ui = true → "Label" ∈ columns data →
     columns (labeled_data p) = columns data)
  ∧ (button ui = true → "Label" ∉ columns data →
     columns (labeled_data p) = columns data ++ ["Label"]).
Proof.
  intros Hrun.
  destruct (main_Rendered_inv _ _ _ _ Hrun) as (d & shown & lo & hi & Hp & Hmin & Hmax).
  rewrite (main_Rendered _ _ ui data session_state d shown lo hi
             Hp Hmin Hmax _ eq_refl) in Hrun.
  injection Hrun as <-. simpl. rewrite Hp.
  apply prepare_data_Some in Hp as (_ & _ & _ & Hcols & _).
  split; [| split].
  - by intros ->.
  - intros -> Hin. simpl. unfold with_Label. rewrite Hcols.
    by rewrite bool_decide_true.
  - intros -> Hin. simpl. unfold with_Label. rewrite Hcols.
    by rewrite bool_decide_false.
Qed.

End session_extras.

Lemma run_reads_only_x_start_scenario1 :
  (∅ : gmap string Z) !! "x_start" = ({["x_end" := 0]} : gmap string Z) !! "x_start"
  ∧ match main clock decimal (requesting at_0930 "Error" true) (Some scenario1) ∅,
          main clock decimal (requesting at_0930 "Error" true) (Some scenario1)
            {["x_end" := 0]} with
    | Rendered p, Rendered p' =>
        shown_chart p = shown_chart p'
        ∧ chart_selection p = chart_selection p'
        ∧ labeled_data p = labeled_data p'
        ∧ messages p = messages p'
        ∧ session_state_after p !! "x_start" = session_state_after p' !! "x_start"
        ∧ session_state_after p !! "x_end" = session_state_after p' !! "x_end"
    | Rendered _, _ | _, Rendered _ => False
    | outcome, outcome' => outcome = outcome'
    end.
Proof.
  assert (Hx : (∅ : gmap string Z) !! "x_start"
               = ({["x_end" := 0]} : gmap string Z) !! "x_start") by reflexivity.
  split; [exact Hx |].
  exact (run_reads_only_x_start clock decimal (requesting at_0930 "Error" true)
           (Some scenario1) ∅ {["x_end" := 0]} Hx).
Defined.

Lemma window_is_kept_scenario1 :
  ∃ p,
    main clock decimal (requesting at_0930 "Error" true) (Some scenario1) ∅
    = Rendered p
    ∧ ∃ x,
        session_state_after p !! "x_start" = Some x
        ∧ session_state_after p !! "x_end" = Some (x + two_hours)
        ∧ (∀ key, key ≠ "x_start" → key ≠ "x_end" →
             session_state_after p !! key = (∅ : gmap string Z) !! key)
        ∧ ∀ min_timestamp,
            init_session_state min_timestamp (session_state_after p)
            = session_state_after p.
Proof.
  pose proof (main_Rendered clock decimal (requesting at_0930 "Error" true)
                scenario1 ∅ series1 [] at_0900 at_1300
                eq_refl eq_refl eq_refl at_0930 eq_refl) as Hrun.
  eexists. split; [exact Hrun |].
  exact (window_is_kept_in_the_session clock decimal _ _ _ _ Hrun).
Defined.

Lemma labels_are_uploaded_or_chosen_scenario1 :
  ∃ p,
    main clock decimal (requesting at_0930 "Error" true) (Some scenario1) ∅
    = Rendered p
    ∧ Forall (λ r',
        ∃ r, r ∈ rows scenario1
          ∧ index r' = index r
          ∧ rest r' = rest r
          ∧ (Label r' = Label r
             ∨ (button (requesting at_0930 "Error" true) = true
                ∧ Label r'
                  = Some (selectbox (requesting at_0930 "Error" true)
                            label_options))))
        (rows (labeled_data p)).
Proof.
  pose proof (main_Rendered clock decimal (requesting at_0930 "Error" true)
                scenario1 ∅ series1 [] at_0900 at_1300
                eq_refl eq_refl eq_refl at_0930 eq_refl) as Hrun.
  eexists. split; [exact Hrun |].
  exact (labels_are_uploaded_or_chosen clock decimal _ _ _ _ Hrun).
Defined.

Lemma run_keeps_the_columns_scenario1 :
  ∃ p,
    main clock decimal (requesting at_0930 "Error" true) (Some scenario1) ∅
    = Rendered p
    ∧ (button (requesting at_0930 "Error" true) = false →
         fst (prepare_data clock decimal scenario1) = Some (labeled_data p)
         ∧ columns (labeled_data p) = columns scenario1)
    ∧ (button (requesting at_0930 "Error" true) = true →
       "Label" ∈ columns scenario1 →
       columns (labeled_data p) = columns scenario1)
    ∧ (button (requesting at_0930 "Error" true) = true →
       "Label" ∉ columns scenario1 →
       columns (labeled_data p) = columns scenario1 ++ ["Label"]).
Proof.
  pose proof (main_Rendered clock decimal (requesting at_0930 "Error" true)
                scenario1 ∅ series1 [] at_0900 at_1300
                eq_refl eq_refl eq_refl at_0930 eq_refl) as Hrun.
  eexists. split; [exact Hrun |].
  exact (run_keeps_the_columns clock decimal _ _ _ _ Hrun).
Defined.
